(** * POI manager GUI (qudi, opx_poimanager/opxpoimanager.py)

    A shallow embedding of the presentation layer of the POI manager:
    the name validator, the POI marker overlay and the orchestrating
    [PoiManagerGui] with its marker dictionary, its combo box of POI names and
    its signal connections, together with the properties the specification
    states about them.

    Conventions.
    - A Python [str] is a sequence of Unicode code points.  The validator works
      on [list N]; POI names, which only serve as dictionary keys, are [string].
    - Python floats are idealised as real numbers ([R]): no rounding, overflow
      or NaN.
    - Python dictionaries keep insertion order; they are association lists.
    - A handler runs in a state-and-exception monad over the GUI state: a
      raised Python exception keeps the mutations done before it.
    - Qt widgets and the backend logic are not part of the module.  The widgets
      are modelled by the state the handlers read back (documented Qt
      behaviour); the backend is a record of the values the handlers read. *)

From Stdlib Require Import List String Ascii Bool Arith NArith ZArith Lia.
From Stdlib Require Import Permutation Reals Lra.
Import ListNotations.

Set Implicit Arguments.

(* ================================================================== *)
(** * Part I: the program *)

(** ** Python dictionaries with [str] keys *)

Module PyDict.
Section Dict.
Variable V : Type.

Definition dict := list (string * V).

Fixpoint get (k : string) (d : dict) : option V :=
  match d with
  | [] => None
  | (k', v) :: r => if String.eqb k' k then Some v else get k r
  end.

(** [k in d] *)
Definition mem (k : string) (d : dict) : bool :=
  match get k d with Some _ => true | None => false end.

(** [d[k] = v]: an existing key keeps its place, a new key goes last. *)
Fixpoint set (k : string) (v : V) (d : dict) : dict :=
  match d with
  | [] => [(k, v)]
  | (k', v') :: r =>
      if String.eqb k' k then (k', v) :: r else (k', v') :: set k v r
  end.

(** [del d[k]] for a key that is present. *)
Fixpoint del (k : string) (d : dict) : dict :=
  match d with
  | [] => []
  | (k', v') :: r => if String.eqb k' k then del k r else (k', v') :: del k r
  end.

(** In-place mutation of the object stored under [k]. *)
Fixpoint adjust (f : V -> V) (k : string) (d : dict) : dict :=
  match d with
  | [] => []
  | (k', v') :: r =>
      if String.eqb k' k then (k', f v') :: r else (k', v') :: adjust f k r
  end.

Definition keys (d : dict) : list string := map fst d.
Definition values (d : dict) : list V := map snd d.

End Dict.
End PyDict.

(** Python exceptions the handlers can raise. *)
Inductive exn :=
| KeyError (key : string)
| ValueError (msg : string).

(* ================================================================== *)
(** ** class NameValidator *)

Module NameValidator.

(** A Python [str]: its code points. *)
Definition pystr := list N.

Definition of_string (s : string) : pystr :=
  map N_of_ascii (list_ascii_of_string s).

Definition between (lo hi c : N) : bool := (lo <=? c)%N && (c <=? hi)%N.

(** The alphabet [[A-Za-z0-9_]]. *)
Definition ascii_word (c : N) : bool :=
  between 48 57 c || between 65 90 c || N.eqb c 95 || between 97 122 c.

(** [\w] of a [str] pattern in Python 3 is Unicode aware: a code point
    matches when [str.isalnum] holds of it or it is the underscore.  These
    are the rows of that table for U+0080..U+00FF. *)
Definition latin1_word (c : N) : bool :=
  N.eqb c 170 || between 178 179 c || N.eqb c 181 || between 185 186 c
  || between 188 190 c || between 192 214 c || between 216 246 c
  || between 248 255 c.

(** [\w]; [high] is the table above U+00FF. *)
Definition uni_word (high : N -> bool) (c : N) : bool :=
  if (c <? 128)%N then ascii_word c
  else if (c <? 256)%N then latin1_word c
  else high c.

Inductive State := Invalid | Intermediate | Acceptable.

Section Validate.

(** The character class of [name_re = re.compile(r'([\w]+)')]. *)
Variable word : N -> bool.

(** The longest run of word characters at the start of [s]. *)
Fixpoint word_run (s : pystr) : pystr :=
  match s with
  | c :: r => if word c then c :: word_run r else []
  | [] => []
  end.

(** [name_re.match(string)]: anchored at the start, greedy, at least one
    character; [Some] carries [match.group()]. *)
Definition name_re_match (s : pystr) : option pystr :=
  match word_run s with
  | [] => None
  | m => Some m
  end.

(** [name_re.search(text)]: the first run found anywhere. *)
Fixpoint name_re_search (s : pystr) : option pystr :=
  match s with
  | [] => None
  | c :: r => if word c then Some (c :: word_run r) else name_re_search r
  end.

Definition pystr_eqb (a b : pystr) : bool :=
  if list_eq_dec N.eq_dec a b then true else false.

Definition validate (empty_allowed : bool) (string : pystr) (position : Z)
  : State * pystr * Z :=
  match string with
  | [] =>
      if empty_allowed then (Acceptable, [], position)
      else (Intermediate, string, position)
  | _ =>
      match name_re_match string with
      | None => (Invalid, [], position)
      | Some matched =>
          if pystr_eqb matched string then (Acceptable, string, position)
          else (Invalid, matched, position)
      end
  end.

Definition fixup (text : pystr) : pystr :=
  match name_re_search text with
  | Some m => m
  | None => []
  end.

End Validate.
End NameValidator.

(* ================================================================== *)
(** ** class PoiMarker *)

Local Open Scope R_scope.
Local Open Scope string_scope.

Definition vec2 : Type := R * R.
Definition vec3 : Type := R * R * R.

(** [position[:2]], and the components of a 3-vector. *)
Definition xy (p : vec3) : vec2 := (fst (fst p), snd (fst p)).
Definition z_of (p : vec3) : R := snd p.

Record Pen := { color : string; width : nat }.

(** What is drawn on the plot widget: the ellipse of a marker and its text
    label, named by the marker object they belong to. *)
Inductive item :=
| Shape (obj : nat)
| Label (obj : nat).

Definition item_eqb (a b : item) : bool :=
  match a, b with
  | Shape i, Shape j => Nat.eqb i j
  | Label i, Label j => Nat.eqb i j
  | _, _ => false
  end.

Module PoiMarker.

Definition default_pen : Pen := {| color := "#F0F"; width := 2 |}.
Definition select_pen : Pen := {| color := "#FFF"; width := 2 |}.

(** A marker object.  [obj] is its identity; [roi_pos], [roi_size] and
    [roi_pen] are the state of the [pg.EllipseROI] base class ([pos()] is
    the corner of the bounding box), the [label_*] fields that of its
    [pg.TextItem].  [_position] keeps the two components that are read. *)
Record t := {
  obj : nat;
  _poi_name : string;
  _selected : bool;
  _position : vec2;
  roi_pos : vec2;
  roi_size : vec2;
  roi_pen : Pen;
  label_text : string;
  label_pos : vec2;
  label_color : string
}.

Definition radius (m : t) : R := fst (roi_size m) / 2.
Definition selected (m : t) : bool := _selected m.
Definition poi_name (m : t) : string := _poi_name m.
Definition position (m : t) : vec2 := _position m.

Definition set_position (p : vec2) (m : t) : t :=
  let radius := radius m in
  let label_offset := radius / sqrt 2 in
  {| obj := obj m; _poi_name := _poi_name m; _selected := _selected m;
     _position := p;
     roi_pos := (fst p - radius, snd p - radius);
     roi_size := roi_size m; roi_pen := roi_pen m;
     label_text := label_text m;
     label_pos := (fst p + label_offset, snd p + label_offset);
     label_color := label_color m |}.

(** [pg.ROI.setSize]: the corner stays where it is. *)
Definition setSize (s : vec2) (m : t) : t :=
  {| obj := obj m; _poi_name := _poi_name m; _selected := _selected m;
     _position := _position m; roi_pos := roi_pos m;
     roi_size := s; roi_pen := roi_pen m;
     label_text := label_text m; label_pos := label_pos m;
     label_color := label_color m |}.

Definition set_radius (radius : R) (m : t) : t :=
  let label_offset := radius / sqrt 2 in
  let m1 := setSize (2 * radius, 2 * radius) m in
  {| obj := obj m1; _poi_name := _poi_name m1; _selected := _selected m1;
     _position := _position m1;
     roi_pos := (fst (position m1) - radius, snd (position m1) - radius);
     roi_size := roi_size m1; roi_pen := roi_pen m1;
     label_text := label_text m1;
     label_pos := (fst (position m1) + label_offset,
                   snd (position m1) + label_offset);
     label_color := label_color m1 |}.

Definition set_name (name : string) (m : t) : t :=
  {| obj := obj m; _poi_name := name; _selected := _selected m;
     _position := _position m; roi_pos := roi_pos m;
     roi_size := roi_size m; roi_pen := roi_pen m;
     label_text := name; label_pos := label_pos m;
     label_color := label_color m |}.

Definition select (m : t) : t :=
  {| obj := obj m; _poi_name := _poi_name m; _selected := true;
     _position := _position m; roi_pos := roi_pos m;
     roi_size := roi_size m; roi_pen := select_pen;
     label_text := label_text m; label_pos := label_pos m;
     label_color := color select_pen |}.

Definition deselect (m : t) : t :=
  {| obj := obj m; _poi_name := _poi_name m; _selected := false;
     _position := _position m; roi_pos := roi_pos m;
     roi_size := roi_size m; roi_pen := default_pen;
     label_text := label_text m; label_pos := label_pos m;
     label_color := color default_pen |}.

(** [__init__]: the base class is built at [position] with size
    [(2*radius, 2*radius)], the label is created, and [set_position] centres
    both.  The connection of [sigClicked] to [_notify_clicked_poi_name] made
    here is recorded by the caller, which owns the connection table. *)
Definition init (new_obj : nat) (position : vec2) (radius : R)
  (poi_name : string) : t :=
  let size := (2 * radius, 2 * radius) in
  set_position position
    {| obj := new_obj; _poi_name := poi_name; _selected := false;
       _position := position;
       roi_pos := position; roi_size := size; roi_pen := default_pen;
       label_text := poi_name; label_pos := (0, 0);
       label_color := color default_pen |}.

Definition remove_item (x : item) (l : list item) : list item :=
  filter (fun y => negb (item_eqb x y)) l.

(** [add_to_view_widget] and [delete_from_view_widget], on the item list of
    the one plot widget there is. *)
Definition add_to_view_widget (m : t) (view : list item) : list item :=
  (view ++ [Shape (obj m)]) ++ [Label (obj m)].

Definition delete_from_view_widget (m : t) (view : list item) : list item :=
  remove_item (Shape (obj m)) (remove_item (Label (obj m)) view).

End PoiMarker.

(* ================================================================== *)
(** ** Signals, slots and connections *)

(** The signals the module connects or disconnects.  A widget signal is named
    widget first, signal second; [marker_sigClicked] and
    [marker_sigPoiSelected] belong to the marker object given. *)
Inductive signal :=
(* internal: widgets of the main window *)
| track_period_SpinBox_editingFinished
| poi_threshold_doubleSpinBox_editingFinished
| poi_diameter_doubleSpinBox_editingFinished
| roi_name_LineEdit_editingFinished
| poi_name_LineEdit_returnPressed
| poi_nametag_LineEdit_editingFinished
| save_roi_Action_triggered
| load_roi_Action_triggered
| blink_correction_view_Action_triggered
| poi_selector_Action_toggled
| restore_default_view_Action_triggered
| roi_map_view_Action_triggered
| poi_editor_view_Action_triggered
| poi_tracker_view_Action_triggered
| auto_pois_view_Action_triggered
| sample_shift_view_Action_triggered
| roi_management_view_Action_triggered
| poi_tools_view_Action_triggered
(* signals of the backend logic *)
| sigOptimizeTimerUpdated
| sigPoiUpdated
| sigActivePoiUpdated
| sigRoiUpdated
| sigOptimizeStateUpdated
| sigThresholdUpdated
| sigDiameterUpdated
(* controls that command the logic *)
| new_poi_Action_triggered
| auto_pois_PushButton_clicked
| del_all_pois_PushButton_clicked
| goto_poi_Action_triggered
| new_roi_Action_triggered
| refind_poi_Action_triggered
| get_confocal_image_PushButton_clicked
| set_poi_PushButton_clicked
| delete_last_pos_Button_clicked
| manual_update_poi_PushButton_clicked
| move_poi_PushButton_clicked
| delete_poi_PushButton_clicked
| active_poi_ComboBox_activated
| goto_poi_after_update_checkBox_stateChanged
| track_poi_Action_triggered
| sigTrackPeriodChanged
| sigPoiThresholdChanged
| sigPoiDiameterChanged
| sigRoiNameChanged
| sigPoiNameChanged
| sigPoiNameTagChanged
| sigAddPoiByClick
(* the scan image and the markers *)
| roi_image_sigMouseClicked
| marker_sigClicked (obj : nat)
| marker_sigPoiSelected (obj : nat).

(** The receivers: methods of the GUI module ([self_...]), methods of the
    logic ([logic_...]), the lambdas of the connect functions, named after
    what they call, and a marker's own [_notify_clicked_poi_name]. *)
Inductive slot :=
| self_track_period_changed
| self_poi_threshold_changed
| self_poi_diameter_changed
| self_roi_name_changed
| self_poi_name_changed
| self_poi_nametag_changed
| self_save_roi
| self_load_roi
| self_toggle_blink_correction
| self_toggle_poi_selector
| self_restore_default_view
| lambda_toggle_roi_map
| lambda_poi_editor_dockWidget_setVisible
| lambda_poi_tracker_dockWidget_setVisible
| lambda_auto_pois_dockWidget_setVisible
| lambda_auto_find_POIs_Action_setVisible
| lambda_sample_shift_dockWidget_setVisible
| lambda_roi_management_ToolBar_setVisible
| lambda_poi_ToolBar_setVisible
| self_update_refocus_timer
| self_update_poi
| self_update_active_poi
| self_update_roi
| self_update_refocus_state
| self__update_poi_threshold
| self__update_poi_diameter
| self_delete_all_pois_clicked
| self_create_poi_from_click
| logic_add_poi
| logic_auto_catch_poi
| lambda_go_to_poi
| logic_reset_roi
| logic_optimise_poi_position
| lambda_set_scan_image
| lambda_delete_history_entry
| logic_move_roi_from_poi_position
| logic_set_poi_anchor_from_position
| lambda_delete_poi
| logic_set_active_poi
| logic_set_move_scanner_after_optimise
| logic_toggle_periodic_refocus
| logic_set_refocus_period
| logic_set_poi_threshold
| logic_set_poi_diameter
| logic_rename_roi
| logic_rename_poi
| logic_set_poi_nametag
| marker_notify_clicked_poi_name (obj : nat).

Scheme Equality for signal.
Scheme Equality for slot.

Definition connection : Type := signal * slot.

(** [sig.connect(slot)] *)
Definition connect (sig : signal) (s : slot) (cs : list connection)
  : list connection := cs ++ [(sig, s)].

(** [sig.disconnect()]: every connection of the signal goes.  The handlers
    call it on signals they have connected. *)
Definition disconnect (sig : signal) (cs : list connection)
  : list connection := filter (fun c => negb (signal_beq (fst c) sig)) cs.

(** The slots a signal reaches, in connection order. *)
Definition receivers (sig : signal) (cs : list connection) : list slot :=
  map snd (filter (fun c => signal_beq (fst c) sig) cs).

(* ================================================================== *)
(** ** QComboBox (not editable) *)

Module ComboBox.

Record t := { items : list string; currentIndex : option nat }.

Definition empty : t := {| items := []; currentIndex := None |}.

Definition clear (_ : t) : t := empty.

(** Items inserted into an empty box make the first one current. *)
Definition addItems (l : list string) (cb : t) : t :=
  {| items := items cb ++ l;
     currentIndex :=
       match items cb, currentIndex cb, l with
       | [], None, _ :: _ => Some 0%nat
       | _, i, _ => i
       end |}.

Fixpoint findText (text : string) (l : list string) : option nat :=
  match l with
  | [] => None
  | x :: r =>
      if String.eqb x text then Some 0%nat
      else option_map S (findText text r)
  end.

(** The item with that text becomes current; no such item, no change. *)
Definition setCurrentText (text : string) (cb : t) : t :=
  match findText text (items cb) with
  | Some i => {| items := items cb; currentIndex := Some i |}
  | None => cb
  end.

(** [setCurrentIndex(-1)] *)
Definition setCurrentIndex_none (cb : t) : t :=
  {| items := items cb; currentIndex := None |}.

Definition currentText (cb : t) : string :=
  match currentIndex cb with
  | Some i => nth i (items cb) ""
  | None => ""
  end.

End ComboBox.

(* ================================================================== *)
(** ** The backend logic, as the handlers read it *)

(** A two-dimensional [numpy] array: its rows and [shape[1]]. *)
Record ndarray := { rows : list (list R); shape1 : nat }.

(** [a[:, i]] *)
Definition column (i : nat) (a : ndarray) : list R :=
  map (fun r => nth i r 0) (rows a).

Record Logic := {
  poi_positions : PyDict.dict vec3;
  poi_names : list string;
  active_poi : option string;
  optimise_xy_size : R;
  get_poi_position : string -> vec3;
  roi_origin : vec3;
  roi_pos_history : ndarray
}.

(** What the module asks of the backend through a connected signal. *)
Inductive command :=
| add_poi (position : vec3).

Inductive MouseButton := LeftButton | RightButton | MiddleButton.
Inductive CursorShape := ArrowCursor | CrossCursor.

(* ================================================================== *)
(** ** class PoiManagerGui: state *)

(** The attributes of the module and the state of the widgets of its main
    window that the handlers below write and read back.  [plot_items] are the
    items of [_mw.roi_image.plot_widget]; [connections] is the table of live
    signal connections; [sent] are the backend commands delivered through a
    connected signal; [log] holds the messages of [self.log.error].
    [poi_coords_label] keeps the position the label is formatted from. *)
Record Gui := {
  _markers : PyDict.dict PoiMarker.t;
  next_obj : nat;
  plot_items : list item;
  connections : list connection;
  active_poi_ComboBox : ComboBox.t;
  poi_coords_label : vec3;
  sample_shift_units : string;
  x_shift_plot : list R * list R;
  y_shift_plot : list R * list R;
  z_shift_plot : list R * list R;
  __poi_selector_active : bool;
  poi_selector_Action_checked : bool;
  roi_image_cursor : CursorShape;
  log : list string;
  sent : list command
}.

Definition set_markers (v : PyDict.dict PoiMarker.t) (g : Gui) : Gui :=
  Build_Gui v (next_obj g) (plot_items g) (connections g)
    (active_poi_ComboBox g) (poi_coords_label g) (sample_shift_units g)
    (x_shift_plot g) (y_shift_plot g) (z_shift_plot g)
    (__poi_selector_active g) (poi_selector_Action_checked g)
    (roi_image_cursor g) (log g) (sent g).

Definition set_next_obj (v : nat) (g : Gui) : Gui :=
  Build_Gui (_markers g) v (plot_items g) (connections g)
    (active_poi_ComboBox g) (poi_coords_label g) (sample_shift_units g)
    (x_shift_plot g) (y_shift_plot g) (z_shift_plot g)
    (__poi_selector_active g) (poi_selector_Action_checked g)
    (roi_image_cursor g) (log g) (sent g).

Definition set_plot_items (v : list item) (g : Gui) : Gui :=
  Build_Gui (_markers g) (next_obj g) v (connections g)
    (active_poi_ComboBox g) (poi_coords_label g) (sample_shift_units g)
    (x_shift_plot g) (y_shift_plot g) (z_shift_plot g)
    (__poi_selector_active g) (poi_selector_Action_checked g)
    (roi_image_cursor g) (log g) (sent g).

Definition set_connections (v : list connection) (g : Gui) : Gui :=
  Build_Gui (_markers g) (next_obj g) (plot_items g) v
    (active_poi_ComboBox g) (poi_coords_label g) (sample_shift_units g)
    (x_shift_plot g) (y_shift_plot g) (z_shift_plot g)
    (__poi_selector_active g) (poi_selector_Action_checked g)
    (roi_image_cursor g) (log g) (sent g).

Definition set_ComboBox (v : ComboBox.t) (g : Gui) : Gui :=
  Build_Gui (_markers g) (next_obj g) (plot_items g) (connections g)
    v (poi_coords_label g) (sample_shift_units g)
    (x_shift_plot g) (y_shift_plot g) (z_shift_plot g)
    (__poi_selector_active g) (poi_selector_Action_checked g)
    (roi_image_cursor g) (log g) (sent g).

Definition set_poi_coords_label (v : vec3) (g : Gui) : Gui :=
  Build_Gui (_markers g) (next_obj g) (plot_items g) (connections g)
    (active_poi_ComboBox g) v (sample_shift_units g)
    (x_shift_plot g) (y_shift_plot g) (z_shift_plot g)
    (__poi_selector_active g) (poi_selector_Action_checked g)
    (roi_image_cursor g) (log g) (sent g).

(** The bottom axis label and the three data sets of the shift plot. *)
Definition set_shift_plots (units : string) (x y z : list R * list R)
  (g : Gui) : Gui :=
  Build_Gui (_markers g) (next_obj g) (plot_items g) (connections g)
    (active_poi_ComboBox g) (poi_coords_label g) units x y z
    (__poi_selector_active g) (poi_selector_Action_checked g)
    (roi_image_cursor g) (log g) (sent g).

Definition set_poi_selector_active (v : bool) (g : Gui) : Gui :=
  Build_Gui (_markers g) (next_obj g) (plot_items g) (connections g)
    (active_poi_ComboBox g) (poi_coords_label g) (sample_shift_units g)
    (x_shift_plot g) (y_shift_plot g) (z_shift_plot g)
    v (poi_selector_Action_checked g)
    (roi_image_cursor g) (log g) (sent g).

Definition set_poi_selector_Action_checked (v : bool) (g : Gui) : Gui :=
  Build_Gui (_markers g) (next_obj g) (plot_items g) (connections g)
    (active_poi_ComboBox g) (poi_coords_label g) (sample_shift_units g)
    (x_shift_plot g) (y_shift_plot g) (z_shift_plot g)
    (__poi_selector_active g) v
    (roi_image_cursor g) (log g) (sent g).

Definition set_roi_image_cursor (v : CursorShape) (g : Gui) : Gui :=
  Build_Gui (_markers g) (next_obj g) (plot_items g) (connections g)
    (active_poi_ComboBox g) (poi_coords_label g) (sample_shift_units g)
    (x_shift_plot g) (y_shift_plot g) (z_shift_plot g)
    (__poi_selector_active g) (poi_selector_Action_checked g)
    v (log g) (sent g).

Definition log_error (msg : string) (g : Gui) : Gui :=
  Build_Gui (_markers g) (next_obj g) (plot_items g) (connections g)
    (active_poi_ComboBox g) (poi_coords_label g) (sample_shift_units g)
    (x_shift_plot g) (y_shift_plot g) (z_shift_plot g)
    (__poi_selector_active g) (poi_selector_Action_checked g)
    (roi_image_cursor g) (log g ++ [msg]) (sent g).

Definition send (c : command) (g : Gui) : Gui :=
  Build_Gui (_markers g) (next_obj g) (plot_items g) (connections g)
    (active_poi_ComboBox g) (poi_coords_label g) (sample_shift_units g)
    (x_shift_plot g) (y_shift_plot g) (z_shift_plot g)
    (__poi_selector_active g) (poi_selector_Action_checked g)
    (roi_image_cursor g) (log g) (sent g ++ [c]).

(** [__init__] *)
Definition new_gui : Gui :=
  {| _markers := []; next_obj := 0; plot_items := []; connections := [];
     active_poi_ComboBox := ComboBox.empty; poi_coords_label := (0, 0, 0);
     sample_shift_units := "s";
     x_shift_plot := ([], []); y_shift_plot := ([], []);
     z_shift_plot := ([], []);
     __poi_selector_active := false; poi_selector_Action_checked := false;
     roi_image_cursor := ArrowCursor; log := []; sent := [] |}.

(* ================================================================== *)
(** ** Handlers: state and exceptions *)

Inductive result (A : Type) :=
| Ok (a : A) (g : Gui)
| Raise (e : exn) (g : Gui).
Arguments Raise {A} e g.

Definition M (A : Type) : Type := Gui -> result A.

Definition ret {A : Type} (a : A) : M A := fun g => Ok a g.

Definition bind {A B : Type} (c : M A) (k : A -> M B) : M B :=
  fun g => match c g with
           | Ok a g' => k a g'
           | Raise e g' => Raise e g'
           end.

Definition raise {A : Type} (e : exn) : M A := fun g => Raise e g.
Definition gets {A : Type} (f : Gui -> A) : M A := fun g => Ok (f g) g.
Definition modify (f : Gui -> Gui) : M unit := fun g => Ok tt (f g).

Declare Scope gui_scope.
Delimit Scope gui_scope with gui.
Notation "x <- c ;; k" := (bind c (fun x => k))
  (at level 61, c at next level, right associativity) : gui_scope.
Notation "c ;; k" := (bind c (fun _ => k))
  (at level 61, right associativity) : gui_scope.
Local Open Scope gui_scope.

(** [for x in l: body(x)] *)
Fixpoint for_each {A : Type} (l : list A) (body : A -> M unit) : M unit :=
  match l with
  | [] => ret tt
  | x :: r => body x ;; for_each r body
  end.

(** The state a handler leaves behind, raised or not. *)
Definition final {A : Type} (r : result A) : Gui :=
  match r with Ok _ g => g | Raise _ g => g end.

(** The exception a handler ends with, if any. *)
Definition raised {A : Type} (r : result A) : option exn :=
  match r with Ok _ _ => None | Raise e _ => Some e end.

(** [self._markers[name]] *)
Definition marker_at (name : string) : M PoiMarker.t :=
  m <- gets (fun g => PyDict.get name (_markers g)) ;;
  match m with
  | Some marker => ret marker
  | None => raise (KeyError name)
  end.

(** A method call on the marker object stored under [name]. *)
Definition on_marker (name : string) (method : PoiMarker.t -> PoiMarker.t)
  : M unit :=
  _ <- marker_at name ;;
  modify (fun g => set_markers (PyDict.adjust method name (_markers g)) g).

Definition on_ComboBox (method : ComboBox.t -> ComboBox.t) : M unit :=
  modify (fun g => set_ComboBox (method (active_poi_ComboBox g)) g).

(* ================================================================== *)
(** ** class PoiManagerGui: methods *)

(** [set(l)] without an order, [a.difference(b)], and [name in l]. *)
Definition py_set (l : list string) : list string := nodup string_dec l.

Definition contains (l : list string) (x : string) : bool :=
  existsb (String.eqb x) l.

Definition difference (a b : list string) : list string :=
  filter (fun x => negb (contains b x)) a.

(** [np.max] of a one-dimensional array with first element [t]. *)
Definition np_max (t : R) (ts : list R) : R := fold_left Rmax ts t.

(** The unit of the time axis and the scaled time column. *)
Definition time_axis (max_time : R) (time : list R) : string * list R :=
  if Rlt_dec max_time 300 then ("s", time)
  else if Rlt_dec max_time 7200 then ("min", map (fun t => t / 60) time)
  else if Rlt_dec max_time 172800 then ("h", map (fun t => t / 3600) time)
  else ("d", map (fun t => t / 86400) time).

(** [for marker in self._markers.values(): if marker.selected:
    marker.deselect(); break] *)
Fixpoint deselect_first (d : PyDict.dict PoiMarker.t)
  : PyDict.dict PoiMarker.t :=
  match d with
  | [] => []
  | (k, m) :: r =>
      if PoiMarker.selected m then (k, PoiMarker.deselect m) :: r
      else (k, m) :: deselect_first r
  end.

Definition do_connect (sig : signal) (s : slot) : M unit :=
  modify (fun g => set_connections (connect sig s (connections g)) g).

Definition do_disconnect (sig : signal) : M unit :=
  modify (fun g => set_connections (disconnect sig (connections g)) g).

(** [poi_dict[name]] *)
Definition dict_item (poi_dict : PyDict.dict vec3) (name : string) : M vec3 :=
  match PyDict.get name poi_dict with
  | Some p => ret p
  | None => raise (KeyError name)
  end.

Section Handlers.

(** [qudi.util.helpers.natural_sort], and the order in which [list(s)]
    enumerates a Python set. *)
Variable natural_sort : list string -> list string.
Variable list_of_set : list string -> list string.

(** The backend at the time the handler runs. *)
Variable L : Logic.

Definition _add_poi_marker (name : string) (position : vec3) : M unit :=
  if String.eqb name "" then ret tt
  else
    present <- gets (fun g => PyDict.mem name (_markers g)) ;;
    if present : bool then
      modify (log_error
        "Unable to add POI marker to ROI image. POI marker already present.")
    else
      new_obj <- gets next_obj ;;
      modify (set_next_obj (S new_obj)) ;;
      let marker :=
        PoiMarker.init new_obj (xy position) (optimise_xy_size L / sqrt 2)
          name in
      do_connect (marker_sigClicked new_obj)
        (marker_notify_clicked_poi_name new_obj) ;;
      modify (fun g =>
        set_plot_items (PoiMarker.add_to_view_widget marker (plot_items g)) g) ;;
      do_connect (marker_sigPoiSelected new_obj) logic_set_active_poi ;;
      modify (fun g => set_markers (PyDict.set name marker (_markers g)) g).

Definition _remove_poi_marker (name : string) : M unit :=
  found <- gets (fun g => PyDict.get name (_markers g)) ;;
  match found with
  | Some marker =>
      modify (fun g =>
        set_plot_items
          (PoiMarker.delete_from_view_widget marker (plot_items g)) g) ;;
      do_disconnect (marker_sigPoiSelected (PoiMarker.obj marker)) ;;
      modify (fun g => set_markers (PyDict.del name (_markers g)) g)
  | None => ret tt
  end.

Definition _update_pois (poi_dict : PyDict.dict vec3) : M unit :=
  on_ComboBox ComboBox.clear ;;
  let poi_names := natural_sort (PyDict.keys poi_dict) in
  on_ComboBox (ComboBox.addItems poi_names) ;;
  old_poi_names <- gets (fun g => py_set (PyDict.keys (_markers g))) ;;
  let new_poi_names := py_set poi_names in
  let names_to_delete := list_of_set (difference old_poi_names new_poi_names) in
  let names_to_add := list_of_set (difference new_poi_names old_poi_names) in
  for_each names_to_delete _remove_poi_marker ;;
  let size := optimise_xy_size L * sqrt 2 in
  remaining <- gets (fun g => PyDict.keys (_markers g)) ;;
  for_each remaining (fun name =>
    on_marker name (PoiMarker.setSize (size, size)) ;;
    p <- dict_item poi_dict name ;;
    on_marker name (PoiMarker.set_position (xy p))) ;;
  for_each names_to_add (fun name =>
    p <- dict_item poi_dict name ;;
    _add_poi_marker name p) ;;
  match active_poi L with
  | Some active =>
      if contains poi_names active then
        on_ComboBox (ComboBox.setCurrentText active) ;;
        on_marker active PoiMarker.select ;;
        active_poi_pos <- dict_item poi_dict active ;;
        modify (set_poi_coords_label active_poi_pos)
      else on_ComboBox ComboBox.setCurrentIndex_none
  | None => on_ComboBox ComboBox.setCurrentIndex_none
  end.

Definition update_poi (old_name new_name : string) (position : vec3)
  : M unit :=
  (if negb (String.eqb old_name new_name) then
     text_active_poi <-
       gets (fun g => ComboBox.currentText (active_poi_ComboBox g)) ;;
     on_ComboBox ComboBox.clear ;;
     on_ComboBox (ComboBox.addItems (natural_sort (poi_names L))) ;;
     if String.eqb text_active_poi old_name then
       on_ComboBox (ComboBox.setCurrentText new_name)
     else on_ComboBox (ComboBox.setCurrentText text_active_poi)
   else ret tt) ;;
  (if String.eqb old_name "" then _add_poi_marker new_name position
   else if String.eqb new_name "" then _remove_poi_marker old_name
   else
     let size := optimise_xy_size L * sqrt 2 in
     on_marker old_name (PoiMarker.set_name new_name) ;;
     popped <- marker_at old_name ;;
     modify (fun g => set_markers (PyDict.del old_name (_markers g)) g) ;;
     modify (fun g => set_markers (PyDict.set new_name popped (_markers g)) g) ;;
     on_marker new_name (PoiMarker.setSize (size, size)) ;;
     on_marker new_name (PoiMarker.set_position (xy position))) ;;
  active <- gets (fun g => ComboBox.currentText (active_poi_ComboBox g)) ;;
  if String.eqb active "" then ret tt
  else on_marker active PoiMarker.select.

Definition update_active_poi (name : string) : M unit :=
  modify (fun g => set_markers (deselect_first (_markers g)) g) ;;
  (if String.eqb name "" then on_ComboBox ComboBox.setCurrentIndex_none
   else on_ComboBox (ComboBox.setCurrentText name)) ;;
  let active_poi_pos :=
    if String.eqb name "" then (0, 0, 0) else get_poi_position L name in
  modify (set_poi_coords_label active_poi_pos) ;;
  present <- gets (fun g => PyDict.mem name (_markers g)) ;;
  if present : bool then
    on_marker name
      (PoiMarker.set_radius (optimise_xy_size L / sqrt 2)) ;;
    on_marker name PoiMarker.select
  else ret tt.

Definition _update_roi_history (history : option ndarray) : M unit :=
  let history :=
    match history with Some h => h | None => roi_pos_history L end in
  if negb (Nat.eqb (shape1 history) 4) then
    modify (log_error "ROI history must be an array of type float[][4].")
  else
    match column 0 history with
    | [] =>
        raise (ValueError
          "zero-size array to reduction operation maximum which has no identity")
    | t :: ts =>
        let max_time := np_max t ts in
        let axis := time_axis max_time (column 0 history) in
        modify (set_shift_plots (fst axis)
                  (snd axis, column 1 history)
                  (snd axis, column 2 history)
                  (snd axis, column 3 history))
    end.

(** [sigAddPoiByClick.emit(new_pos)]: the connected backend method is
    called once per connection. *)
Definition emit_sigAddPoiByClick (new_pos : vec3) : M unit :=
  slots <- gets (fun g => receivers sigAddPoiByClick (connections g)) ;;
  for_each slots (fun s =>
    match s with
    | logic_add_poi => modify (send (add_poi new_pos))
    | _ => ret tt
    end).

Definition create_poi_from_click (pos : vec2) (button : MouseButton)
  : M unit :=
  match button with
  | LeftButton =>
      let new_pos := (fst pos, snd pos, z_of (roi_origin L)) in
      emit_sigAddPoiByClick new_pos
  | _ => ret tt
  end.

(** A mouse click on the scan image: [roi_image.sigMouseClicked] is emitted
    and reaches whatever is connected to it. *)
Definition roi_image_clicked (pos : vec2) (button : MouseButton) : M unit :=
  slots <- gets (fun g => receivers roi_image_sigMouseClicked (connections g)) ;;
  for_each slots (fun s =>
    match s with
    | self_create_poi_from_click => create_poi_from_click pos button
    | _ => ret tt
    end).

Definition toggle_poi_selector (is_active : bool) : M unit :=
  checked <- gets poi_selector_Action_checked ;;
  (if negb (Bool.eqb is_active checked) then
     modify (set_poi_selector_Action_checked is_active)
   else ret tt) ;;
  active <- gets __poi_selector_active ;;
  (if negb (Bool.eqb is_active active) then
     if is_active then
       do_connect roi_image_sigMouseClicked self_create_poi_from_click ;;
       modify (set_roi_image_cursor CrossCursor)
     else
       do_disconnect roi_image_sigMouseClicked ;;
       modify (set_roi_image_cursor ArrowCursor)
   else ret tt) ;;
  modify (set_poi_selector_active is_active).

Definition __connect_update_signals_from_logic : M unit :=
  do_connect sigOptimizeTimerUpdated self_update_refocus_timer ;;
  do_connect sigPoiUpdated self_update_poi ;;
  do_connect sigActivePoiUpdated self_update_active_poi ;;
  do_connect sigRoiUpdated self_update_roi ;;
  do_connect sigOptimizeStateUpdated self_update_refocus_state ;;
  do_connect sigThresholdUpdated self__update_poi_threshold ;;
  do_connect sigDiameterUpdated self__update_poi_diameter.

Definition __disconnect_update_signals_from_logic : M unit :=
  do_disconnect sigOptimizeTimerUpdated ;;
  do_disconnect sigPoiUpdated ;;
  do_disconnect sigActivePoiUpdated ;;
  do_disconnect sigRoiUpdated ;;
  do_disconnect sigOptimizeStateUpdated.

Definition __connect_control_signals_to_logic : M unit :=
  do_connect new_poi_Action_triggered logic_add_poi ;;
  do_connect auto_pois_PushButton_clicked logic_auto_catch_poi ;;
  do_connect del_all_pois_PushButton_clicked self_delete_all_pois_clicked ;;
  do_connect goto_poi_Action_triggered lambda_go_to_poi ;;
  do_connect new_roi_Action_triggered logic_reset_roi ;;
  do_connect refind_poi_Action_triggered logic_optimise_poi_position ;;
  do_connect get_confocal_image_PushButton_clicked lambda_set_scan_image ;;
  do_connect set_poi_PushButton_clicked logic_add_poi ;;
  do_connect delete_last_pos_Button_clicked lambda_delete_history_entry ;;
  do_connect manual_update_poi_PushButton_clicked
    logic_move_roi_from_poi_position ;;
  do_connect move_poi_PushButton_clicked logic_set_poi_anchor_from_position ;;
  do_connect delete_poi_PushButton_clicked lambda_delete_poi ;;
  do_connect active_poi_ComboBox_activated logic_set_active_poi ;;
  do_connect goto_poi_after_update_checkBox_stateChanged
    logic_set_move_scanner_after_optimise ;;
  do_connect track_poi_Action_triggered logic_toggle_periodic_refocus ;;
  do_connect sigTrackPeriodChanged logic_set_refocus_period ;;
  do_connect sigPoiThresholdChanged logic_set_poi_threshold ;;
  do_connect sigPoiDiameterChanged logic_set_poi_diameter ;;
  do_connect sigRoiNameChanged logic_rename_roi ;;
  do_connect sigPoiNameChanged logic_rename_poi ;;
  do_connect sigPoiNameTagChanged logic_set_poi_nametag ;;
  do_connect sigAddPoiByClick logic_add_poi.

Definition __disconnect_control_signals_to_logic : M unit :=
  do_disconnect new_poi_Action_triggered ;;
  do_disconnect goto_poi_Action_triggered ;;
  do_disconnect new_roi_Action_triggered ;;
  do_disconnect refind_poi_Action_triggered ;;
  do_disconnect get_confocal_image_PushButton_clicked ;;
  do_disconnect set_poi_PushButton_clicked ;;
  do_disconnect delete_last_pos_Button_clicked ;;
  do_disconnect manual_update_poi_PushButton_clicked ;;
  do_disconnect move_poi_PushButton_clicked ;;
  do_disconnect delete_poi_PushButton_clicked ;;
  do_disconnect active_poi_ComboBox_activated ;;
  do_disconnect goto_poi_after_update_checkBox_stateChanged ;;
  do_disconnect track_poi_Action_triggered ;;
  do_disconnect sigTrackPeriodChanged ;;
  do_disconnect sigPoiThresholdChanged ;;
  do_disconnect sigPoiDiameterChanged ;;
  do_disconnect sigRoiNameChanged ;;
  do_disconnect sigPoiNameChanged ;;
  do_disconnect sigPoiNameTagChanged ;;
  do_disconnect sigAddPoiByClick ;;
  markers <- gets (fun g => PyDict.values (_markers g)) ;;
  for_each markers (fun marker =>
    do_disconnect (marker_sigPoiSelected (PoiMarker.obj marker))).

Definition __connect_internal_signals : M unit :=
  do_connect track_period_SpinBox_editingFinished self_track_period_changed ;;
  do_connect poi_threshold_doubleSpinBox_editingFinished
    self_poi_threshold_changed ;;
  do_connect poi_diameter_doubleSpinBox_editingFinished
    self_poi_diameter_changed ;;
  do_connect roi_name_LineEdit_editingFinished self_roi_name_changed ;;
  do_connect poi_name_LineEdit_returnPressed self_poi_name_changed ;;
  do_connect poi_nametag_LineEdit_editingFinished self_poi_nametag_changed ;;
  do_connect save_roi_Action_triggered self_save_roi ;;
  do_connect load_roi_Action_triggered self_load_roi ;;
  do_connect blink_correction_view_Action_triggered
    self_toggle_blink_correction ;;
  do_connect poi_selector_Action_toggled self_toggle_poi_selector ;;
  do_connect restore_default_view_Action_triggered self_restore_default_view ;;
  do_connect roi_map_view_Action_triggered lambda_toggle_roi_map ;;
  do_connect poi_editor_view_Action_triggered
    lambda_poi_editor_dockWidget_setVisible ;;
  do_connect poi_tracker_view_Action_triggered
    lambda_poi_tracker_dockWidget_setVisible ;;
  do_connect auto_pois_view_Action_triggered
    lambda_auto_pois_dockWidget_setVisible ;;
  do_connect auto_pois_view_Action_triggered
    lambda_auto_find_POIs_Action_setVisible ;;
  do_connect sample_shift_view_Action_triggered
    lambda_sample_shift_dockWidget_setVisible ;;
  do_connect roi_management_view_Action_triggered
    lambda_roi_management_ToolBar_setVisible ;;
  do_connect poi_tools_view_Action_triggered lambda_poi_ToolBar_setVisible.

Definition __disconnect_internal_signals : M unit :=
  do_disconnect track_period_SpinBox_editingFinished ;;
  do_disconnect roi_name_LineEdit_editingFinished ;;
  do_disconnect poi_name_LineEdit_returnPressed ;;
  do_disconnect poi_nametag_LineEdit_editingFinished ;;
  do_disconnect save_roi_Action_triggered ;;
  do_disconnect load_roi_Action_triggered ;;
  do_disconnect blink_correction_view_Action_triggered ;;
  do_disconnect poi_selector_Action_toggled ;;
  do_disconnect restore_default_view_Action_triggered ;;
  do_disconnect roi_map_view_Action_triggered ;;
  do_disconnect poi_editor_view_Action_triggered ;;
  do_disconnect poi_tracker_view_Action_triggered ;;
  do_disconnect auto_pois_view_Action_triggered ;;
  do_disconnect sample_shift_view_Action_triggered ;;
  do_disconnect roi_management_view_Action_triggered ;;
  do_disconnect poi_tools_view_Action_triggered.

(** [__init_roi_history_plot]: the three data items start with one point at
    the origin, the bottom axis is labelled in seconds, and the history of
    the backend is plotted. *)
Definition __init_roi_history_plot : M unit :=
  modify (set_shift_plots "s" ([0], [0]) ([0], [0]) ([0], [0])) ;;
  _update_roi_history (Some (roi_pos_history L)).

(** [on_activate].  The new main window brings an empty combo box and an
    empty plot widget.  The calls that only write widgets outside the state
    kept here (dock layout, validators, scan image, refocus timer, ROI name,
    name tag, threshold, diameter, [show]) leave it as it is. *)
Definition on_activate : M unit :=
  modify (set_markers []) ;;
  modify (set_ComboBox ComboBox.empty) ;;
  modify (set_plot_items []) ;;
  __init_roi_history_plot ;;
  _update_pois (poi_positions L) ;;
  __connect_internal_signals ;;
  __connect_update_signals_from_logic ;;
  __connect_control_signals_to_logic.

Definition on_deactivate : M unit :=
  toggle_poi_selector false ;;
  __disconnect_control_signals_to_logic ;;
  __disconnect_update_signals_from_logic ;;
  __disconnect_internal_signals.

End Handlers.

(** A sequence of uses of the POI selector toggle. *)
Definition toggles (l : list bool) : M unit :=
  for_each l toggle_poi_selector.

(** The selected markers, by name, in dictionary order. *)
Definition selected_names (g : Gui) : list string :=
  map fst (filter (fun km => PoiMarker.selected (snd km)) (_markers g)).

(** An instance of [natural_sort] for names without digits: insertion sort
    on the code point order. *)
Fixpoint insert_sorted (x : string) (l : list string) : list string :=
  match l with
  | [] => [x]
  | y :: r => if String.leb x y then x :: l else y :: insert_sorted x r
  end.

Definition sort_names (l : list string) : list string :=
  fold_right insert_sorted [] l.

(* ================================================================== *)
(** ** Vocabulary of the statements *)

(** [Rel] relates the state before a computation to the state it leaves,
    whether it returns or raises. *)
Definition keeps (Rel : Gui -> Gui -> Prop) {A : Type} (c : M A) : Prop :=
  forall g, Rel g (final (c g)).

(** From [g] the computation [c] returns, with a result and a state that
    satisfy [Q]. *)
Definition returns {A : Type} (c : M A) (g : Gui) (Q : A -> Gui -> Prop)
  : Prop :=
  exists a g', c g = Ok a g' /\ Q a g'.

(** [c] returns normally and does nothing but append [l] to the table of
    connections. *)
Definition adds (l : list connection) (c : M unit) : Prop :=
  forall g, c g = Ok tt (set_connections (connections g ++ l) g).

(** What a click on the scan image depends on: the receivers of the click
    signal and of [sigAddPoiByClick], the selector flag, and the commands
    sent so far. *)
Definition click_frame (g g' : Gui) : Prop :=
  receivers roi_image_sigMouseClicked (connections g')
  = receivers roi_image_sigMouseClicked (connections g)
  /\ receivers sigAddPoiByClick (connections g')
     = receivers sigAddPoiByClick (connections g)
  /\ __poi_selector_active g' = __poi_selector_active g
  /\ sent g' = sent g.

(** The click listener is connected exactly when the selector is active, and
    [sigAddPoiByClick] reaches [add_poi] of the logic once. *)
Definition click_wiring (g : Gui) : Prop :=
  receivers roi_image_sigMouseClicked (connections g)
  = (if __poi_selector_active g then [self_create_poi_from_click] else [])
  /\ receivers sigAddPoiByClick (connections g) = [logic_add_poi].

(** The shape and the label of [m] sit around the centre [p]. *)
Definition centred_at (p : vec2) (m : PoiMarker.t) : Prop :=
  PoiMarker.position m = p
  /\ PoiMarker.roi_pos m
     = (fst p - PoiMarker.radius m, snd p - PoiMarker.radius m)
  /\ PoiMarker.label_pos m
     = (fst p + PoiMarker.radius m / sqrt 2,
        snd p + PoiMarker.radius m / sqrt 2).

(** [m] is drawn on the plot widget and its click notification reaches the
    logic. *)
Definition attached (m : PoiMarker.t) (g : Gui) : Prop :=
  In (Shape (PoiMarker.obj m)) (plot_items g)
  /\ In (Label (PoiMarker.obj m)) (plot_items g)
  /\ In (marker_sigPoiSelected (PoiMarker.obj m), logic_set_active_poi)
       (connections g).

(** [m] is off the plot widget and its click notification reaches nobody. *)
Definition detached (m : PoiMarker.t) (g : Gui) : Prop :=
  ~ In (Shape (PoiMarker.obj m)) (plot_items g)
  /\ ~ In (Label (PoiMarker.obj m)) (plot_items g)
  /\ receivers (marker_sigPoiSelected (PoiMarker.obj m)) (connections g) = [].

(** Every marker object in the dictionary was allocated before [next_obj]. *)
Definition objects_allocated (g : Gui) : Prop :=
  forall n m, PyDict.get n (_markers g) = Some m ->
              (PoiMarker.obj m < next_obj g)%nat.

(** An item, or a connection, of a marker object allocated at or after
    [bound]. *)
Definition item_from (bound : nat) (x : item) : Prop :=
  exists i, (bound <= i)%nat /\ (x = Shape i \/ x = Label i).

Definition connection_from (bound : nat) (c : connection) : Prop :=
  exists i, (bound <= i)%nat
            /\ (fst c = marker_sigClicked i \/ fst c = marker_sigPoiSelected i).

(** The bodies of the second and third loop of [_update_pois] and its last
    step, under a name each. *)
Definition reposition (L : Logic) (poi_dict : PyDict.dict vec3)
  (name : string) : M unit :=
  let size := optimise_xy_size L * sqrt 2 in
  on_marker name (PoiMarker.setSize (size, size)) ;;
  p <- dict_item poi_dict name ;;
  on_marker name (PoiMarker.set_position (xy p)).

Definition add_reported (L : Logic) (poi_dict : PyDict.dict vec3)
  (name : string) : M unit :=
  p <- dict_item poi_dict name ;;
  _add_poi_marker L name p.

Definition show_active (L : Logic) (poi_dict : PyDict.dict vec3)
  (poi_names : list string) : M unit :=
  match active_poi L with
  | Some active =>
      if contains poi_names active then
        on_ComboBox (ComboBox.setCurrentText active) ;;
        on_marker active PoiMarker.select ;;
        active_poi_pos <- dict_item poi_dict active ;;
        modify (set_poi_coords_label active_poi_pos)
      else on_ComboBox ComboBox.setCurrentIndex_none
  | None => on_ComboBox ComboBox.setCurrentIndex_none
  end.

(* ================================================================== *)
(** ** Scenarios *)

(** Two POIs, as the backend reports them. *)
Definition two_pois : PyDict.dict vec3 :=
  [("A", (0, 0, 0)); ("B", (1, 1, 0))].

Definition one_row_history : ndarray :=
  {| rows := [[0; 0; 0; 0]]; shape1 := 4 |}.

(** A backend holding [pois] with [active] as its active POI. *)
Definition backend (pois : PyDict.dict vec3) (active : option string)
  : Logic :=
  {| poi_positions := pois;
     poi_names := PyDict.keys pois;
     active_poi := active;
     optimise_xy_size := 1;
     get_poi_position := fun name =>
       match PyDict.get name pois with Some p => p | None => (0, 0, 0) end;
     roi_origin := (0, 0, 3);
     roi_pos_history := one_row_history |}.

(** Markers b and c on the image, b active; the backend has since deleted
    b and added a. *)
Definition pois_b_c : PyDict.dict vec3 :=
  [("b", (0, 0, 0)); ("c", (1, 1, 0))].

Definition pois_c_a : PyDict.dict vec3 :=
  [("c", (1, 1, 0)); ("a", (2, 2, 0))].

(** A mapping with one POI under the empty name. *)
Definition pois_empty_name : PyDict.dict vec3 := [("", (0, 0, 0))].

(** The order in which [list(s)] enumerates, taken as the stored order. *)
Definition stored_order (l : list string) : list string := l.

(* ================================================================== *)
(** ** class PoiManagerGui: further methods *)

(** What [sigRoiUpdated] carries: any Python object.  When it is a dict, the
    keys the handler looks for are there or not; the values of [name],
    [scan_image] and [scan_image_extent] only reach widgets outside the
    state, so their presence is all that is kept of them. *)
Record RoiDict := {
  roi_name : option string;
  roi_poi_nametag : option (option string);
  roi_history : option (option ndarray);
  roi_scan_image : bool;
  roi_scan_image_extent : bool;
  roi_pois : option (PyDict.dict vec3)
}.

Inductive pyobject :=
| NotADict
| Dict (d : RoiDict).

(** [update_roi].  [_update_roi_name], [_update_poi_nametag] and
    [_update_scan_image] write a line edit, a line edit and the image widget
    and leave the state kept here as it is. *)
Definition update_roi (natural_sort list_of_set : list string -> list string)
  (L : Logic) (roi_dict : pyobject) : M unit :=
  match roi_dict with
  | NotADict =>
      modify (log_error
        "ROI parameters to update must be given in a single dictionary.")
  | Dict d =>
      (match roi_history d with
       | Some history => _update_roi_history L history
       | None => ret tt
       end) ;;
      match roi_pois d with
      | Some poi_dict => _update_pois natural_sort list_of_set L poi_dict
      | None => ret tt
      end
  end.

(** The three parts of [update_poi], under a name each: the combo box is
    refilled when the names differ, the marker is added, removed or re-keyed,
    and the marker of the name the combo box shows is selected. *)
Definition refill_ComboBox (natural_sort : list string -> list string)
  (L : Logic) (old_name new_name : string) : M unit :=
  if negb (String.eqb old_name new_name) then
    text_active_poi <-
      gets (fun g => ComboBox.currentText (active_poi_ComboBox g)) ;;
    on_ComboBox ComboBox.clear ;;
    on_ComboBox (ComboBox.addItems (natural_sort (poi_names L))) ;;
    if String.eqb text_active_poi old_name then
      on_ComboBox (ComboBox.setCurrentText new_name)
    else on_ComboBox (ComboBox.setCurrentText text_active_poi)
  else ret tt.

Definition rekey_marker (L : Logic) (old_name new_name : string)
  (position : vec3) : M unit :=
  let size := optimise_xy_size L * sqrt 2 in
  on_marker old_name (PoiMarker.set_name new_name) ;;
  popped <- marker_at old_name ;;
  modify (fun g => set_markers (PyDict.del old_name (_markers g)) g) ;;
  modify (fun g => set_markers (PyDict.set new_name popped (_markers g)) g) ;;
  on_marker new_name (PoiMarker.setSize (size, size)) ;;
  on_marker new_name (PoiMarker.set_position (xy position)).

Definition update_marker (L : Logic) (old_name new_name : string)
  (position : vec3) : M unit :=
  if String.eqb old_name "" then _add_poi_marker L new_name position
  else if String.eqb new_name "" then _remove_poi_marker old_name
  else rekey_marker L old_name new_name position.

Definition select_shown : M unit :=
  active <- gets (fun g => ComboBox.currentText (active_poi_ComboBox g)) ;;
  if String.eqb active "" then ret tt
  else on_marker active PoiMarker.select.





(** A signal of the main window or of the logic, not of a marker. *)
Definition marker_signal (s : signal) : bool :=
  match s with
  | marker_sigClicked _ | marker_sigPoiSelected _ => true
  | _ => false
  end.

(** The handlers never send a command to the backend, never touch the
    connections of a signal that is not a marker's, and leave the selector
    flag alone. *)
Definition display_only (g g' : Gui) : Prop :=
  sent g' = sent g
  /\ __poi_selector_active g' = __poi_selector_active g
  /\ forall s, marker_signal s = false ->
               receivers s (connections g') = receivers s (connections g).



(** The combo box is as it was. *)
Definition same_ComboBox (g g' : Gui) : Prop :=
  active_poi_ComboBox g' = active_poi_ComboBox g.

(* ================================================================== *)
(** * Part II: properties *)

Unset Implicit Arguments.
Local Open Scope list_scope.

(** ** Name validator *)

Section ValidatorFacts.
Import NameValidator.
Variable word : N -> bool.

Lemma pystr_eqb_true (a b : pystr) : pystr_eqb a b = true <-> a = b.
Proof.
  unfold pystr_eqb. destruct (list_eq_dec N.eq_dec a b); split; congruence.
Qed.

Lemma pystr_eqb_refl (a : pystr) : pystr_eqb a a = true.
Proof. now apply pystr_eqb_true. Qed.

Lemma word_run_all (s : pystr) : forallb word s = true -> word_run word s = s.
Proof.
  induction s as [|c r IH]; simpl; [reflexivity|].
  intros H. apply andb_true_iff in H as [Hc Hr].
  rewrite Hc. f_equal. now apply IH.
Qed.

Lemma word_run_split (p : pystr) (c : N) (rest : pystr) :
  forallb word p = true -> word c = false ->
  word_run word (p ++ c :: rest) = p.
Proof.
  induction p as [|a p IH]; simpl; intros Hp Hc.
  - now rewrite Hc.
  - apply andb_true_iff in Hp as [Ha Hp]. rewrite Ha. f_equal. now apply IH.
Qed.

Lemma prefix_neq (p : pystr) (c : N) (rest : pystr) : p <> p ++ c :: rest.
Proof.
  intros H. apply (f_equal (@List.length N)) in H.
  rewrite length_app in H. simpl in H. lia.
Qed.

Lemma validate_all_word (empty_allowed : bool) (s : pystr) (position : Z) :
  s <> [] -> forallb word s = true ->
  validate word empty_allowed s position = (Acceptable, s, position).
Proof.
  intros Hne Hall. unfold validate, name_re_match.
  rewrite (word_run_all s Hall).
  destruct s as [|c r]; [congruence|].
  now rewrite pystr_eqb_refl.
Qed.

Lemma validate_first_mismatch (empty_allowed : bool) (p : pystr) (c : N)
  (rest : pystr) (position : Z) :
  forallb word p = true -> word c = false ->
  validate word empty_allowed (p ++ c :: rest) position
  = (Invalid, p, position).
Proof.
  intros Hp Hc. unfold validate, name_re_match.
  rewrite (word_run_split p c rest Hp Hc).
  destruct p as [|a p'].
  - reflexivity.
  - change ((a :: p') ++ c :: rest) with (a :: (p' ++ c :: rest)).
    cbv iota beta.
    destruct (pystr_eqb (a :: p') (a :: p' ++ c :: rest)) eqn:E;
      [|reflexivity].
    apply pystr_eqb_true in E. exfalso.
    exact (prefix_neq (a :: p') c rest E).
Qed.

End ValidatorFacts.

Lemma ascii_word_uni_word (high : N -> bool) (c : N) :
  NameValidator.ascii_word c = true -> NameValidator.uni_word high c = true.
Proof.
  unfold NameValidator.uni_word. intros H.
  destruct (c <? 128)%N eqn:E; [exact H|].
  exfalso. apply N.ltb_ge in E.
  unfold NameValidator.ascii_word, NameValidator.between in H.
  rewrite !orb_true_iff, !andb_true_iff, !N.leb_le, N.eqb_eq in H. lia.
Qed.

Lemma forallb_ascii_uni (high : N -> bool) (s : NameValidator.pystr) :
  forallb NameValidator.ascii_word s = true ->
  forallb (NameValidator.uni_word high) s = true.
Proof.
  rewrite !forallb_forall. intros H c Hc.
  apply ascii_word_uni_word. now apply H.
Qed.

(** C3, as the code has it.  The alphabet of the validator is the word
    character class of Python's [\w] (which contains [[A-Za-z0-9_]]): a
    non-empty string of word characters, in particular one over
    [[A-Za-z0-9_]], is Acceptable; the empty string is Acceptable when
    [empty_allowed] holds and Intermediate otherwise; a string with a
    character that is not a word character is Invalid, the correction is the
    prefix before the first such character, and the cursor position is
    returned as it came. *)
Theorem validate_word_characters (high : N -> bool) (empty_allowed : bool)
  (s : NameValidator.pystr) (position : Z) :
  let word := NameValidator.uni_word high in
  (s <> [] -> forallb NameValidator.ascii_word s = true ->
   NameValidator.validate word empty_allowed s position
   = (NameValidator.Acceptable, s, position))
  /\ (s <> [] -> forallb word s = true ->
      NameValidator.validate word empty_allowed s position
      = (NameValidator.Acceptable, s, position))
  /\ NameValidator.validate word empty_allowed [] position
     = (if empty_allowed then NameValidator.Acceptable
        else NameValidator.Intermediate, [], position)
  /\ (forall p c rest,
        s = p ++ c :: rest -> forallb word p = true -> word c = false ->
        NameValidator.validate word empty_allowed s position
        = (NameValidator.Invalid, p, position)).
Proof.
  intros word. repeat split.
  - intros Hne Hall. apply validate_all_word; [exact Hne|].
    now apply forallb_ascii_uni.
  - intros Hne Hall. now apply validate_all_word.
  - now destruct empty_allowed.
  - intros p c rest -> Hp Hc. now apply validate_first_mismatch.
Qed.

Lemma validate_word_characters_witness :
  NameValidator.validate (NameValidator.uni_word (fun _ => false)) false
    (NameValidator.of_string "poi 1") 3
  = (NameValidator.Invalid, NameValidator.of_string "poi", 3%Z).
Proof.
  apply (proj2 (proj2 (proj2
    (validate_word_characters (fun _ => false) false
       (NameValidator.of_string "poi 1") 3)))
    (NameValidator.of_string "poi") 32%N (NameValidator.of_string "1"));
    reflexivity.
Defined.

(** C3 as stated fails: U+00E9 is outside [[A-Za-z0-9_]], and the one-letter
    string made of it is Acceptable. *)
Lemma validate_accepts_non_ascii_letter :
  NameValidator.ascii_word 233 = false
  /\ NameValidator.validate (NameValidator.uni_word (fun _ => false)) false
       [233%N] 1
     = (NameValidator.Acceptable, [233%N], 1%Z).
Proof. split; reflexivity. Qed.

Example validate_ascii_name :
  NameValidator.validate (NameValidator.uni_word (fun _ => false)) false
    (NameValidator.of_string "poi_12") 6
  = (NameValidator.Acceptable, NameValidator.of_string "poi_12", 6%Z).
Proof. reflexivity. Qed.

Example fixup_first_run :
  NameValidator.fixup (NameValidator.uni_word (fun _ => false))
    (NameValidator.of_string "a!b@c") = NameValidator.of_string "a"
  /\ NameValidator.fixup (NameValidator.uni_word (fun _ => false))
       (NameValidator.of_string "!!!") = [].
Proof. split; reflexivity. Qed.

(* ------------------------------------------------------------------ *)
(** ** POI marker geometry *)

Lemma twice_half (r : R) : 2 * r / 2 = r.
Proof. field. Qed.

(** C6.  The constructor, [set_radius] and [set_position] put the corner of
    the shape at the centre minus the radius and the label at the centre plus
    [radius / sqrt 2], on both axes; [set_radius] makes the shape [2 * r]
    wide and high. *)
Theorem marker_anchor_and_label (new_obj : nat) (px py r : R)
  (name : string) (m : PoiMarker.t) :
  let built := PoiMarker.init new_obj (px, py) r name in
  let resized := PoiMarker.set_radius r m in
  let moved := PoiMarker.set_position (px, py) m in
  let both := PoiMarker.set_position (px, py) (PoiMarker.set_radius r m) in
  (PoiMarker.roi_pos built = (px - r, py - r)
   /\ PoiMarker.label_pos built = (px + r / sqrt 2, py + r / sqrt 2)
   /\ PoiMarker.position built = (px, py) /\ PoiMarker.radius built = r)
  /\ (PoiMarker.roi_size resized = (2 * r, 2 * r)
      /\ PoiMarker.radius resized = r
      /\ PoiMarker.roi_pos resized
         = (fst (PoiMarker.position m) - r, snd (PoiMarker.position m) - r)
      /\ PoiMarker.label_pos resized
         = (fst (PoiMarker.position m) + r / sqrt 2,
            snd (PoiMarker.position m) + r / sqrt 2))
  /\ (PoiMarker.roi_pos moved
      = (px - PoiMarker.radius m, py - PoiMarker.radius m)
      /\ PoiMarker.label_pos moved
         = (px + PoiMarker.radius m / sqrt 2,
            py + PoiMarker.radius m / sqrt 2))
  /\ (PoiMarker.roi_pos both = (px - r, py - r)
      /\ PoiMarker.label_pos both = (px + r / sqrt 2, py + r / sqrt 2)).
Proof.
  cbv zeta.
  unfold PoiMarker.init, PoiMarker.set_position, PoiMarker.set_radius,
    PoiMarker.setSize, PoiMarker.radius, PoiMarker.position.
  cbn [PoiMarker.roi_pos PoiMarker.label_pos PoiMarker.roi_size
       PoiMarker._position fst snd].
  rewrite !twice_half. repeat split; reflexivity.
Qed.

(* ------------------------------------------------------------------ *)
(** ** Removing a marker that is not there *)

(** C10.  [_remove_poi_marker] of a name that is not a key of the marker
    dictionary returns normally and leaves the whole state as it was:
    markers, plot items, connections and log. *)
Theorem remove_absent_marker_is_noop (name : string) (g : Gui) :
  PyDict.mem name (_markers g) = false ->
  _remove_poi_marker name g = Ok tt g.
Proof.
  unfold _remove_poi_marker, PyDict.mem, bind, gets.
  destruct (PyDict.get name (_markers g)); [discriminate|reflexivity].
Qed.

Lemma remove_absent_marker_is_noop_witness :
  _remove_poi_marker "C" new_gui = Ok tt new_gui.
Proof. apply (remove_absent_marker_is_noop "C" new_gui). reflexivity. Defined.

(* ------------------------------------------------------------------ *)
(** ** The drift history plot *)

Lemma np_max_in (ts : list R) : forall t, In (np_max t ts) (t :: ts).
Proof.
  unfold np_max. induction ts as [|a ts IH]; intros t; simpl.
  - now left.
  - set (F := fold_left Rmax ts (Rmax t a)).
    destruct (IH (Rmax t a)) as [H|H]; fold F in H; [|auto].
    unfold Rmax in H. destruct (Rle_dec t a); auto.
Qed.

Lemma np_max_upper (ts : list R) :
  forall t x, In x (t :: ts) -> x <= np_max t ts.
Proof.
  unfold np_max. induction ts as [|a ts IH]; intros t x Hx; simpl.
  - destruct Hx as [<-|[]]. apply Rle_refl.
  - assert (Hm : Rmax t a <= fold_left Rmax ts (Rmax t a))
      by (apply IH; now left).
    destruct Hx as [<-|[<-|Hx]].
    + eapply Rle_trans; [apply Rmax_l|exact Hm].
    + eapply Rle_trans; [apply Rmax_r|exact Hm].
    + apply IH. now right.
Qed.

Lemma np_max_unique (t : R) (ts : list R) (m : R) :
  In m (t :: ts) -> (forall x, In x (t :: ts) -> x <= m) -> np_max t ts = m.
Proof.
  intros Hin Hub. apply Rle_antisym.
  - apply Hub, np_max_in.
  - now apply np_max_upper.
Qed.

(** C8.  A history whose [shape[1]] is not 4 is answered with one logged
    error; the axis label and the data of the three shift plots stay. *)
Theorem roi_history_wrong_width (L : Logic) (history : option ndarray)
  (g : Gui) :
  shape1 (match history with Some h => h | None => roi_pos_history L end)
  <> 4%nat ->
  exists g',
    _update_roi_history L history g = Ok tt g'
    /\ log g' = log g ++ ["ROI history must be an array of type float[][4]."]
    /\ x_shift_plot g' = x_shift_plot g
    /\ y_shift_plot g' = y_shift_plot g
    /\ z_shift_plot g' = z_shift_plot g
    /\ sample_shift_units g' = sample_shift_units g.
Proof.
  intros Hw. unfold _update_roi_history.
  apply Nat.eqb_neq in Hw. rewrite Hw. cbn [negb].
  eexists. split; [reflexivity|]. repeat split.
Qed.

Lemma roi_history_wrong_width_witness :
  exists g',
    _update_roi_history (backend [] None)
      (Some {| rows := [[0; 1; 2]]; shape1 := 3 |}) new_gui = Ok tt g'
    /\ log g' = log new_gui
                ++ ["ROI history must be an array of type float[][4]."]
    /\ x_shift_plot g' = x_shift_plot new_gui
    /\ y_shift_plot g' = y_shift_plot new_gui
    /\ z_shift_plot g' = z_shift_plot new_gui
    /\ sample_shift_units g' = sample_shift_units new_gui.
Proof.
  apply (roi_history_wrong_width (backend [] None)
           (Some {| rows := [[0; 1; 2]]; shape1 := 3 |}) new_gui).
  simpl. lia.
Defined.

(** C7.  For a history of width 4 with largest time stamp [max_time], the
    three shift series are plotted against the time column as it is, in
    seconds, when [max_time < 300]; against the column divided by 60, in
    minutes, when [max_time < 7200]; divided by 3600, in hours, when
    [max_time < 172800]; and divided by 86400, in days, otherwise. *)
Theorem roi_history_time_axis (L : Logic) (h : ndarray) (g : Gui)
  (max_time : R) :
  shape1 h = 4%nat ->
  In max_time (column 0 h) ->
  (forall t, In t (column 0 h) -> t <= max_time) ->
  exists g' units time,
    _update_roi_history L (Some h) g = Ok tt g'
    /\ sample_shift_units g' = units
    /\ x_shift_plot g' = (time, column 1 h)
    /\ y_shift_plot g' = (time, column 2 h)
    /\ z_shift_plot g' = (time, column 3 h)
    /\ (max_time < 300 -> units = "s" /\ time = column 0 h)
    /\ (300 <= max_time < 7200 ->
        units = "min" /\ time = map (fun t => t / 60) (column 0 h))
    /\ (7200 <= max_time < 172800 ->
        units = "h" /\ time = map (fun t => t / 3600) (column 0 h))
    /\ (172800 <= max_time ->
        units = "d" /\ time = map (fun t => t / 86400) (column 0 h)).
Proof.
  intros Hw Hin Hub. unfold _update_roi_history. rewrite Hw. cbn [Nat.eqb negb].
  destruct (column 0 h) as [|t ts] eqn:Ecol; [destruct Hin|].
  rewrite (np_max_unique t ts max_time Hin Hub).
  eexists. exists (fst (time_axis max_time (t :: ts))).
  exists (snd (time_axis max_time (t :: ts))).
  split; [reflexivity|]. repeat split; unfold time_axis;
    repeat match goal with
           | |- context [Rlt_dec ?a ?b] => destruct (Rlt_dec a b)
           end; try reflexivity; lra.
Qed.

Lemma roi_history_time_axis_witness :
  exists g' units time,
    _update_roi_history (backend [] None)
      (Some {| rows := [[100; 1; 2; 3]; [1000; 4; 5; 6]]; shape1 := 4 |})
      new_gui = Ok tt g'
    /\ sample_shift_units g' = units
    /\ x_shift_plot g' = (time, [1; 4])
    /\ y_shift_plot g' = (time, [2; 5])
    /\ z_shift_plot g' = (time, [3; 6])
    /\ (1000 < 300 -> units = "s" /\ time = [100; 1000])
    /\ (300 <= 1000 < 7200 ->
        units = "min" /\ time = map (fun t => t / 60) [100; 1000])
    /\ (7200 <= 1000 < 172800 ->
        units = "h" /\ time = map (fun t => t / 3600) [100; 1000])
    /\ (172800 <= 1000 ->
        units = "d" /\ time = map (fun t => t / 86400) [100; 1000]).
Proof.
  apply (roi_history_time_axis (backend [] None)
           {| rows := [[100; 1; 2; 3]; [1000; 4; 5; 6]]; shape1 := 4 |}
           new_gui 1000).
  - reflexivity.
  - simpl. right. left. reflexivity.
  - simpl. intros t [<-|[<-|[]]]; lra.
Defined.

(* ------------------------------------------------------------------ *)
(** ** The active POI and the selected marker *)

(** C1 on the code.  With markers A and B, A active and selected, a second
    reconciliation at a moment when the backend has B as its active POI
    selects B and leaves A selected: two markers are selected, and A is
    selected while the combo box shows B. *)
Theorem update_pois_leaves_old_marker_selected :
  let r1 := _update_pois sort_names stored_order
              (backend two_pois (Some "A")) two_pois new_gui in
  let r2 := _update_pois sort_names stored_order
              (backend two_pois (Some "B")) two_pois (final r1) in
  raised r1 = None
  /\ selected_names (final r1) = ["A"]
  /\ ComboBox.currentText (active_poi_ComboBox (final r1)) = "A"
  /\ raised r2 = None
  /\ selected_names (final r2) = ["A"; "B"]
  /\ ComboBox.currentText (active_poi_ComboBox (final r2)) = "B".
Proof. repeat split; reflexivity. Qed.

(* ------------------------------------------------------------------ *)
(** ** Handlers that raise *)

(** C9 on the code.  Markers b and c are shown and b is active.  The
    backend deletes b and adds a; when the notification of the deletion is
    handled the combo box is refilled with a and c, falls on a, and
    [update_poi] looks up the marker of a, which does not exist yet:
    [KeyError].  A rename notification for a name without a marker raises
    as well, and so does [_update_roi_history] on a history without rows. *)
Theorem update_poi_raises_KeyError :
  let shown := final (_update_pois sort_names stored_order
                        (backend pois_b_c (Some "b")) pois_b_c new_gui) in
  PyDict.keys (_markers shown) = ["b"; "c"]
  /\ raised (update_poi sort_names (backend pois_c_a (Some "c")) "b" ""
               (0, 0, 0) shown)
     = Some (KeyError "a")
  /\ raised (update_poi sort_names (backend pois_b_c (Some "b")) "X" "Y"
               (0, 0, 0) shown)
     = Some (KeyError "X")
  /\ raised (_update_roi_history (backend pois_b_c (Some "b"))
               (Some {| rows := []; shape1 := 4 |}) shown)
     = Some (ValueError
               "zero-size array to reduction operation maximum which has no identity").
Proof. repeat split; reflexivity. Qed.

(* ------------------------------------------------------------------ *)
(** ** Connections left after deactivation *)

(** C2 on the code.  After activation and deactivation six of the
    connections made by the three connect functions are still live, with no
    POI at all and with two POIs alike; next to them only the connection
    each marker object makes to itself in its constructor remains. *)
Theorem deactivation_leaves_connections :
  let left_over :=
    [ (poi_threshold_doubleSpinBox_editingFinished, self_poi_threshold_changed);
      (poi_diameter_doubleSpinBox_editingFinished, self_poi_diameter_changed);
      (sigThresholdUpdated, self__update_poi_threshold);
      (sigDiameterUpdated, self__update_poi_diameter);
      (auto_pois_PushButton_clicked, logic_auto_catch_poi);
      (del_all_pois_PushButton_clicked, self_delete_all_pois_clicked) ] in
  let r0 := (on_activate sort_names stored_order (backend [] None) ;;
             on_deactivate) new_gui in
  let r2 := (on_activate sort_names stored_order
               (backend two_pois (Some "A")) ;;
             on_deactivate) new_gui in
  raised r0 = None
  /\ connections (final r0) = left_over
  /\ raised r2 = None
  /\ connections (final r2)
     = (marker_sigClicked 0, marker_notify_clicked_poi_name 0)
       :: (marker_sigClicked 1, marker_notify_clicked_poi_name 1)
       :: left_over.
Proof. repeat split; reflexivity. Qed.

(* ------------------------------------------------------------------ *)
(** ** Reasoning about handlers *)

Lemma bind_ok_inv {A B : Type} (c : M A) (k : A -> M B) (g g2 : Gui) (b : B) :
  bind c k g = Ok b g2 ->
  exists a g1, c g = Ok a g1 /\ k a g1 = Ok b g2.
Proof.
  unfold bind. destruct (c g) as [a g1|e g1]; [|discriminate].
  intros H. now exists a, g1.
Qed.

Lemma ok_final {A : Type} (r : result A) (a : A) (g : Gui) :
  r = Ok a g -> final r = g.
Proof. now intros ->. Qed.

(** A relation between the state before and the state a computation leaves,
    whether it returns or raises. *)
Section Frame.
Variable Rel : Gui -> Gui -> Prop.
Hypothesis Rel_refl : forall g, Rel g g.
Hypothesis Rel_trans : forall g1 g2 g3, Rel g1 g2 -> Rel g2 g3 -> Rel g1 g3.

Lemma keeps_ret {A : Type} (a : A) : keeps Rel (ret a).
Proof. intros g. apply Rel_refl. Qed.

Lemma keeps_raise {A : Type} (e : exn) : keeps Rel (@raise A e).
Proof. intros g. apply Rel_refl. Qed.

Lemma keeps_gets {A : Type} (f : Gui -> A) : keeps Rel (gets f).
Proof. intros g. apply Rel_refl. Qed.

Lemma keeps_modify (f : Gui -> Gui) :
  (forall g, Rel g (f g)) -> keeps Rel (modify f).
Proof. intros H g. apply H. Qed.

Lemma keeps_bind {A B : Type} (c : M A) (k : A -> M B) :
  keeps Rel c -> (forall a, keeps Rel (k a)) -> keeps Rel (bind c k).
Proof.
  intros Hc Hk g. unfold bind. specialize (Hc g).
  destruct (c g) as [a g1|e g1]; simpl in *; [|exact Hc].
  eapply Rel_trans; [exact Hc|apply Hk].
Qed.

Lemma keeps_for_each {A : Type} (l : list A) (body : A -> M unit) :
  (forall x, keeps Rel (body x)) -> keeps Rel (for_each l body).
Proof.
  intros Hb. induction l as [|x r IH]; simpl.
  - apply keeps_ret.
  - apply keeps_bind; [apply Hb|intros _; exact IH].
Qed.

End Frame.

(** Breaks a handler into its steps; what is left are the [modify] steps. *)
Ltac frame_steps :=
  repeat first
    [ apply keeps_bind; [assumption .. | idtac | intros ?]
    | apply keeps_for_each; [assumption .. | intros ?]
    | apply keeps_ret; assumption
    | apply keeps_raise; assumption
    | apply keeps_gets; assumption
    | match goal with
      | |- keeps _ (if ?b then _ else _) => destruct b
      | |- keeps _ (match ?o with Some _ => _ | None => _ end) => destruct o
      | |- keeps _ (match ?o with LeftButton => _ | _ => _ end) => destruct o
      | |- keeps _ (match ?l with [] => _ | _ :: _ => _ end) => destruct l
      end
    | progress cbv beta zeta ].

(** ** Connections *)

Lemma signal_beq_eq (a b : signal) : signal_beq a b = true <-> a = b.
Proof.
  split; [apply internal_signal_dec_bl|apply internal_signal_dec_lb].
Qed.

Lemma receivers_app (sig : signal) (cs ds : list connection) :
  receivers sig (cs ++ ds) = receivers sig cs ++ receivers sig ds.
Proof. unfold receivers. now rewrite filter_app, map_app. Qed.

Lemma receivers_connect (sig s : signal) (sl : slot) (cs : list connection) :
  receivers sig (connect s sl cs)
  = receivers sig cs ++ (if signal_beq s sig then [sl] else []).
Proof.
  unfold connect. rewrite receivers_app. f_equal.
  unfold receivers. simpl. now destruct (signal_beq s sig).
Qed.

Lemma receivers_disconnect (sig s : signal) (cs : list connection) :
  receivers sig (disconnect s cs)
  = if signal_beq s sig then [] else receivers sig cs.
Proof.
  unfold receivers, disconnect.
  assert (Hrefl : forall a, signal_beq a a = true)
    by (intros a; now apply signal_beq_eq).
  destruct (signal_beq s sig) eqn:Es.
  - apply signal_beq_eq in Es. subst sig.
    induction cs as [|[a sl] cs IH]; simpl; [reflexivity|].
    destruct (signal_beq a s) eqn:Eas; simpl; [exact IH|].
    now rewrite Eas.
  - induction cs as [|[a sl] cs IH]; simpl; [reflexivity|].
    destruct (signal_beq a s) eqn:Eas; simpl.
    + apply signal_beq_eq in Eas. subst a. now rewrite Es.
    + destruct (signal_beq a sig); simpl; [now rewrite IH|exact IH].
Qed.

(* ------------------------------------------------------------------ *)
(** ** Click to add *)

Arguments receivers : simpl never.
Arguments connect : simpl never.
Arguments disconnect : simpl never.

Lemma click_frame_refl (g : Gui) : click_frame g g.
Proof. repeat split. Qed.

Lemma click_frame_trans (g1 g2 g3 : Gui) :
  click_frame g1 g2 -> click_frame g2 g3 -> click_frame g1 g3.
Proof.
  unfold click_frame. intros (A1 & B1 & C1 & D1) (A2 & B2 & C2 & D2).
  repeat split; congruence.
Qed.

Ltac click_frame_modify :=
  match goal with
  | |- keeps _ (modify _) =>
      apply keeps_modify; intros ?; unfold click_frame; cbn;
      rewrite ?receivers_connect, ?receivers_disconnect; cbn;
      rewrite ?app_nil_r; auto
  end.

Ltac click_frame_tac :=
  pose proof click_frame_refl; pose proof click_frame_trans;
  frame_steps; click_frame_modify.

Lemma update_pois_click_frame (natural_sort list_of_set : list string -> list string)
  (L : Logic) (poi_dict : PyDict.dict vec3) :
  keeps click_frame (_update_pois natural_sort list_of_set L poi_dict).
Proof.
  unfold _update_pois, _add_poi_marker, _remove_poi_marker, on_marker,
    marker_at, on_ComboBox, dict_item, do_connect, do_disconnect.
  click_frame_tac.
Qed.

Lemma init_roi_history_plot_click_frame (L : Logic) :
  keeps click_frame (__init_roi_history_plot L).
Proof.
  unfold __init_roi_history_plot, _update_roi_history.
  click_frame_tac.
Qed.

Lemma adds_connect (sig : signal) (s : slot) :
  adds [(sig, s)] (do_connect sig s).
Proof. intros g. reflexivity. Qed.

Lemma adds_bind (l1 l2 : list connection) (c k : M unit) :
  adds l1 c -> adds l2 k -> adds (l1 ++ l2) (c ;; k).
Proof.
  intros Hc Hk g. unfold bind. rewrite Hc, Hk. cbn.
  now rewrite app_assoc.
Qed.

Ltac adds_tac :=
  lazymatch goal with
  | |- adds _ (do_connect _ _) => apply adds_connect
  | |- adds _ (bind _ _) => eapply adds_bind; [adds_tac|adds_tac]
  end.

Lemma connect_groups_add :
  exists l,
    adds l (__connect_internal_signals ;;
            __connect_update_signals_from_logic ;;
            __connect_control_signals_to_logic)
    /\ receivers roi_image_sigMouseClicked l = []
    /\ receivers sigAddPoiByClick l = [logic_add_poi].
Proof.
  eexists. split.
  - unfold __connect_internal_signals, __connect_update_signals_from_logic,
      __connect_control_signals_to_logic. adds_tac.
  - split; reflexivity.
Qed.

Lemma connect_groups_wiring (g : Gui) :
  exists g',
    (__connect_internal_signals ;; __connect_update_signals_from_logic ;;
     __connect_control_signals_to_logic) g = Ok tt g'
    /\ receivers roi_image_sigMouseClicked (connections g')
       = receivers roi_image_sigMouseClicked (connections g)
    /\ receivers sigAddPoiByClick (connections g')
       = receivers sigAddPoiByClick (connections g) ++ [logic_add_poi]
    /\ __poi_selector_active g' = __poi_selector_active g
    /\ sent g' = sent g.
Proof.
  destruct connect_groups_add as (l & Hl & Hroi & Hadd).
  exists (set_connections (connections g ++ l) g).
  split; [apply Hl|]. cbn.
  rewrite !receivers_app, Hroi, Hadd, app_nil_r. auto.
Qed.

Lemma activate_wiring (natural_sort list_of_set : list string -> list string)
  (L : Logic) (g : Gui) :
  on_activate natural_sort list_of_set L new_gui = Ok tt g ->
  click_wiring g /\ __poi_selector_active g = false /\ sent g = [].
Proof.
  unfold on_activate. intros H.
  apply bind_ok_inv in H as (? & g1 & H1 & H).
  apply bind_ok_inv in H as (? & g2 & H2 & H).
  apply bind_ok_inv in H as (? & g3 & H3 & H).
  apply bind_ok_inv in H as (? & g4 & H4 & H).
  apply bind_ok_inv in H as (? & g5 & H5 & H).
  injection H1 as E1. injection H2 as E2. injection H3 as E3.
  apply ok_final in H4, H5.
  pose proof (init_roi_history_plot_click_frame L g3) as F4.
  rewrite H4 in F4.
  pose proof (update_pois_click_frame natural_sort list_of_set L
                (poi_positions L) g4) as F5.
  rewrite H5 in F5.
  destruct (connect_groups_wiring g5) as (g' & Hg' & A & B & C & D).
  rewrite Hg' in H. injection H as <-.
  destruct F4 as (A4 & B4 & C4 & D4). destruct F5 as (A5 & B5 & C5 & D5).
  unfold click_wiring.
  rewrite A, B, C, D, A5, B5, C5, D5, A4, B4, C4, D4.
  subst g3 g2 g1. cbn. auto.
Qed.

Lemma toggle_wiring (is_active : bool) (g : Gui) :
  click_wiring g ->
  exists g',
    toggle_poi_selector is_active g = Ok tt g'
    /\ click_wiring g'
    /\ __poi_selector_active g' = is_active
    /\ sent g' = sent g.
Proof.
  unfold click_wiring. intros [Hclick Hadd].
  destruct is_active, (poi_selector_Action_checked g) eqn:Ec,
    (__poi_selector_active g) eqn:E;
    unfold toggle_poi_selector, bind, gets, modify, ret, do_connect,
      do_disconnect;
    rewrite ?Ec; cbn; rewrite ?E; cbn;
    (eexists; split; [reflexivity|]); cbn;
    rewrite ?receivers_connect, ?receivers_disconnect; cbn;
    rewrite ?E, ?Hclick, ?Hadd; cbn; auto.
Qed.

Lemma last_cons (l : list bool) :
  forall b d : bool, last (b :: l) d = last l b.
Proof.
  induction l as [|a l IH]; intros b d; [reflexivity|].
  change (last (b :: a :: l) d) with (last (a :: l) d).
  now rewrite (IH a d), (IH a b).
Qed.

Lemma toggles_wiring (ts : list bool) :
  forall g, click_wiring g ->
  exists g',
    toggles ts g = Ok tt g'
    /\ click_wiring g'
    /\ __poi_selector_active g' = last ts (__poi_selector_active g)
    /\ sent g' = sent g.
Proof.
  induction ts as [|b ts IH]; intros g W.
  - exists g. repeat split; apply W.
  - destruct (toggle_wiring b g W) as (g1 & H1 & W1 & F1 & S1).
    destruct (IH g1 W1) as (g2 & H2 & W2 & F2 & S2).
    exists g2. unfold toggles in *. cbn [for_each]. unfold bind at 1.
    rewrite H1.
    split; [exact H2|]. split; [exact W2|].
    rewrite F2, F1, S2, S1. split; [|reflexivity].
    symmetry. apply last_cons.
Qed.

Lemma click_on_wired_image (L : Logic) (x y : R) (button : MouseButton)
  (g : Gui) :
  click_wiring g ->
  exists g',
    roi_image_clicked L (x, y) button g = Ok tt g'
    /\ sent g'
       = sent g
         ++ (if __poi_selector_active g then
               match button with
               | LeftButton => [add_poi (x, y, z_of (roi_origin L))]
               | _ => []
               end
             else []).
Proof.
  unfold click_wiring. intros [Hclick Hadd].
  unfold roi_image_clicked, bind, gets. rewrite Hclick.
  destruct (__poi_selector_active g); cbn.
  - destruct button; cbn; unfold emit_sigAddPoiByClick, bind, gets;
      rewrite ?Hadd; cbn; eexists; (split; [reflexivity|]); cbn;
      now rewrite ?app_nil_r.
  - exists g. now rewrite app_nil_r.
Qed.

Lemma raised_none_ok (r : result unit) :
  raised r = None -> r = Ok tt (final r).
Proof. destruct r as [[] g|e g]; [reflexivity|discriminate]. Qed.

(** C5.  After activation and any sequence of uses of the selector toggle,
    the placement mode is what the last use set (off when there was none).
    A click on the scan image at [(x, y)] returns normally; with the mode off
    nothing is sent; with the mode on a left click sends exactly one
    [add_poi] with position [(x, y, z of the ROI origin)], and a click with
    another button sends nothing. *)
Theorem click_to_add (natural_sort list_of_set : list string -> list string)
  (L0 L : Logic) (ts : list bool) (x y : R) (button : MouseButton) :
  let r := (on_activate natural_sort list_of_set L0 ;; toggles ts) new_gui in
  raised r = None ->
  __poi_selector_active (final r) = last ts false
  /\ sent (final r) = []
  /\ exists g',
       roi_image_clicked L (x, y) button (final r) = Ok tt g'
       /\ sent g'
          = if __poi_selector_active (final r) then
              match button with
              | LeftButton => [add_poi (x, y, z_of (roi_origin L))]
              | _ => []
              end
            else [].
Proof.
  intros r H. apply raised_none_ok in H. set (g := final r) in *.
  unfold r in H. apply bind_ok_inv in H as ([] & ga & Ha & Ht).
  apply activate_wiring in Ha as (Wa & Fa & Sa).
  destruct (toggles_wiring ts ga Wa) as (g2 & H2 & W2 & F2 & S2).
  rewrite Ht in H2. injection H2 as <-.
  rewrite Fa in F2. rewrite Sa in S2.
  split; [exact F2|]. split; [exact S2|].
  destruct (click_on_wired_image L x y button g W2) as (g' & Hc & Hs).
  exists g'. split; [exact Hc|]. now rewrite Hs, S2.
Qed.

Lemma click_to_add_witness :
  let r := (on_activate sort_names stored_order
              (backend two_pois (Some "A")) ;;
            toggles [true]) new_gui in
  __poi_selector_active (final r) = last [true] false
  /\ sent (final r) = []
  /\ exists g',
       roi_image_clicked (backend two_pois (Some "A")) (5, 7) LeftButton
         (final r) = Ok tt g'
       /\ sent g'
          = if __poi_selector_active (final r) then
              match LeftButton with
              | LeftButton =>
                  [add_poi
                     (5, 7, z_of (roi_origin (backend two_pois (Some "A"))))]
              | _ => []
              end
            else [].
Proof.
  intros r.
  apply (click_to_add sort_names stored_order (backend two_pois (Some "A"))
           (backend two_pois (Some "A")) [true] 5 7 LeftButton).
  reflexivity.
Defined.

(* ------------------------------------------------------------------ *)
(** ** Dictionaries *)

Section DictFacts.
Variable V : Type.
Implicit Types (d : PyDict.dict V) (k n : string).

Lemma get_del k n d :
  PyDict.get n (PyDict.del k d)
  = if String.eqb k n then None else PyDict.get n d.
Proof.
  induction d as [|[k' v] d IH]; simpl.
  - now destruct (String.eqb k n).
  - destruct (String.eqb k' k) eqn:Ek.
    + apply String.eqb_eq in Ek. subst k'. rewrite IH.
      now destruct (String.eqb k n).
    + simpl. destruct (String.eqb k' n) eqn:En.
      * apply String.eqb_eq in En. subst k'.
        rewrite String.eqb_sym in Ek. now rewrite Ek.
      * exact IH.
Qed.

Lemma get_set k n (v : V) d :
  PyDict.get n (PyDict.set k v d)
  = if String.eqb k n then Some v else PyDict.get n d.
Proof.
  induction d as [|[k' v'] d IH]; simpl.
  - reflexivity.
  - destruct (String.eqb k' k) eqn:Ek; simpl.
    + apply String.eqb_eq in Ek. subst k'. now destruct (String.eqb k n).
    + destruct (String.eqb k' n) eqn:En.
      * apply String.eqb_eq in En. subst k'.
        rewrite String.eqb_sym in Ek. now rewrite Ek.
      * exact IH.
Qed.

Lemma get_adjust (f : V -> V) k n d :
  PyDict.get n (PyDict.adjust f k d)
  = if String.eqb k n then option_map f (PyDict.get n d)
    else PyDict.get n d.
Proof.
  induction d as [|[k' v'] d IH]; simpl.
  - now destruct (String.eqb k n).
  - destruct (String.eqb k' k) eqn:Ek; simpl.
    + apply String.eqb_eq in Ek. subst k'. now destruct (String.eqb k n).
    + destruct (String.eqb k' n) eqn:En.
      * apply String.eqb_eq in En. subst k'.
        rewrite String.eqb_sym in Ek. now rewrite Ek.
      * exact IH.
Qed.

Lemma get_some_iff_key n d :
  PyDict.get n d <> None <-> In n (PyDict.keys d).
Proof.
  induction d as [|[k' v'] d IH]; simpl.
  - split; [congruence|tauto].
  - destruct (String.eqb k' n) eqn:En.
    + apply String.eqb_eq in En. split; [now left|discriminate].
    + apply String.eqb_neq in En. rewrite IH. tauto.
Qed.

Lemma get_none_iff_key n d :
  PyDict.get n d = None <-> ~ In n (PyDict.keys d).
Proof.
  rewrite <- get_some_iff_key.
  destruct (PyDict.get n d); split; intros H; try congruence.
  exfalso. apply H. discriminate.
Qed.

Lemma mem_true_iff_key n d :
  PyDict.mem n d = true <-> In n (PyDict.keys d).
Proof.
  rewrite <- get_some_iff_key. unfold PyDict.mem.
  destruct (PyDict.get n d); split; congruence.
Qed.

End DictFacts.

Lemma contains_true_iff (l : list string) (x : string) :
  contains l x = true <-> In x l.
Proof.
  unfold contains. rewrite existsb_exists. split.
  - intros (y & Hy & E). apply String.eqb_eq in E. now subst.
  - intros H. exists x. split; [exact H|apply String.eqb_refl].
Qed.

Lemma contains_false_iff (l : list string) (x : string) :
  contains l x = false <-> ~ In x l.
Proof.
  rewrite <- contains_true_iff. destruct (contains l x); split; congruence.
Qed.

Lemma difference_In (a b : list string) (x : string) :
  In x (difference a b) <-> In x a /\ ~ In x b.
Proof.
  unfold difference. rewrite filter_In, negb_true_iff, contains_false_iff.
  tauto.
Qed.

Lemma py_set_In (l : list string) (x : string) : In x (py_set l) <-> In x l.
Proof. apply nodup_In. Qed.

(* ------------------------------------------------------------------ *)
(** ** Reconciliation of the markers with the backend *)

Lemma item_eqb_eq (a b : item) : item_eqb a b = true <-> a = b.
Proof.
  destruct a, b; simpl; rewrite ?Nat.eqb_eq; split; congruence.
Qed.

Lemma remove_item_In (x y : item) (l : list item) :
  In y (PoiMarker.remove_item x l) <-> In y l /\ y <> x.
Proof.
  unfold PoiMarker.remove_item. rewrite filter_In, negb_true_iff.
  split; intros [H1 H2]; split; auto.
  - intros ->. rewrite (proj2 (item_eqb_eq x x) eq_refl) in H2. discriminate.
  - destruct (item_eqb x y) eqn:E; [|reflexivity].
    apply item_eqb_eq in E. now subst.
Qed.

Lemma delete_from_view_In (m : PoiMarker.t) (y : item) (l : list item) :
  In y (PoiMarker.delete_from_view_widget m l)
  <-> In y l /\ y <> Shape (PoiMarker.obj m) /\ y <> Label (PoiMarker.obj m).
Proof.
  unfold PoiMarker.delete_from_view_widget. rewrite !remove_item_In. tauto.
Qed.

Lemma disconnect_In (s : signal) (c : connection) (cs : list connection) :
  In c (disconnect s cs) <-> In c cs /\ fst c <> s.
Proof.
  unfold disconnect. rewrite filter_In, negb_true_iff.
  split; intros [H1 H2]; split; auto.
  - intros E. apply signal_beq_eq in E. congruence.
  - destruct (signal_beq (fst c) s) eqn:E; [|reflexivity].
    apply signal_beq_eq in E. contradiction.
Qed.

Lemma receivers_nil (s : signal) (cs : list connection) :
  (forall c, In c cs -> fst c <> s) -> receivers s cs = [].
Proof.
  intros H. unfold receivers.
  induction cs as [|c cs IH]; simpl; [reflexivity|].
  destruct (signal_beq (fst c) s) eqn:E.
  - apply signal_beq_eq in E. exfalso. apply (H c); [now left|exact E].
  - apply IH. intros c' Hc'. apply H. now right.
Qed.

(** One removal. *)
Lemma remove_marker_step (name : string) (g : Gui) :
  exists g',
    _remove_poi_marker name g = Ok tt g'
    /\ (forall n, PyDict.get n (_markers g')
                  = if String.eqb name n then None
                    else PyDict.get n (_markers g))
    /\ next_obj g' = next_obj g
    /\ incl (plot_items g') (plot_items g)
    /\ incl (connections g') (connections g)
    /\ (forall m, PyDict.get name (_markers g) = Some m ->
          ~ In (Shape (PoiMarker.obj m)) (plot_items g')
          /\ ~ In (Label (PoiMarker.obj m)) (plot_items g')
          /\ forall c, In c (connections g') ->
                       fst c <> marker_sigPoiSelected (PoiMarker.obj m)).
Proof.
  unfold _remove_poi_marker, bind, gets, modify, do_disconnect.
  destruct (PyDict.get name (_markers g)) as [marker|] eqn:E.
  - eexists. split; [reflexivity|]. cbn. repeat split.
    + intros n. apply get_del.
    + intros x Hx. now apply delete_from_view_In in Hx.
    + intros c Hc. now apply disconnect_In in Hc.
    + injection H as <-. intros Hx. apply delete_from_view_In in Hx. tauto.
    + injection H as <-. intros Hx. apply delete_from_view_In in Hx. tauto.
    + injection H as <-. intros c Hc. now apply disconnect_In in Hc.
  - exists g. split; [reflexivity|]. repeat split; try apply incl_refl;
      try discriminate.
    intros n. destruct (String.eqb name n) eqn:En; [|reflexivity].
    apply String.eqb_eq in En. now subst.
Qed.

(** The deletion loop. *)
Lemma remove_markers_loop (l : list string) :
  forall g,
  exists g',
    for_each l _remove_poi_marker g = Ok tt g'
    /\ (forall n, PyDict.get n (_markers g')
                  = if contains l n then None else PyDict.get n (_markers g))
    /\ next_obj g' = next_obj g
    /\ incl (plot_items g') (plot_items g)
    /\ incl (connections g') (connections g)
    /\ (forall n m, In n l -> PyDict.get n (_markers g) = Some m ->
          ~ In (Shape (PoiMarker.obj m)) (plot_items g')
          /\ ~ In (Label (PoiMarker.obj m)) (plot_items g')
          /\ forall c, In c (connections g') ->
                       fst c <> marker_sigPoiSelected (PoiMarker.obj m)).
Proof.
  induction l as [|a l IH]; intros g.
  - exists g. split; [reflexivity|].
    repeat split; try apply incl_refl; intros; contradiction.
  - destruct (remove_marker_step a g) as (g1 & R1 & M1 & N1 & P1 & C1 & D1).
    destruct (IH g1) as (g2 & R2 & M2 & N2 & P2 & C2 & D2).
    exists g2. cbn [for_each]. unfold bind at 1. rewrite R1.
    split; [exact R2|]. split; [|split; [congruence|]].
    { intros n. rewrite M2, M1. unfold contains. cbn [existsb].
      rewrite (String.eqb_sym n a). fold (contains l n).
      destruct (String.eqb a n), (contains l n); reflexivity. }
    split; [eapply incl_tran; eassumption|].
    split; [eapply incl_tran; eassumption|].
    intros n m Hin Hget.
    destruct (String.eqb a n) eqn:Ean.
    + apply String.eqb_eq in Ean. subst a.
      destruct (D1 m Hget) as (X & Y & Z).
      repeat split.
      * intros H. apply X. now apply P2.
      * intros H. apply Y. now apply P2.
      * intros c Hc. apply Z. now apply C2.
    + destruct Hin as [->|Hin]; [now rewrite String.eqb_refl in Ean|].
      apply (D2 n m Hin). now rewrite M1, Ean.
Qed.

Lemma returns_ret {A : Type} (a : A) (g : Gui) (Q : A -> Gui -> Prop) :
  Q a g -> returns (ret a) g Q.
Proof. intros H. now exists a, g. Qed.

Lemma returns_gets {A : Type} (f : Gui -> A) (g : Gui)
  (Q : A -> Gui -> Prop) :
  Q (f g) g -> returns (gets f) g Q.
Proof. intros H. now exists (f g), g. Qed.

Lemma returns_modify (f : Gui -> Gui) (g : Gui) (Q : unit -> Gui -> Prop) :
  Q tt (f g) -> returns (modify f) g Q.
Proof. intros H. now exists tt, (f g). Qed.

Lemma returns_bind {A B : Type} (c : M A) (k : A -> M B) (g : Gui)
  (Q : B -> Gui -> Prop) :
  returns c g (fun a g1 => returns (k a) g1 Q) -> returns (bind c k) g Q.
Proof.
  intros (a & g1 & Hc & b & g2 & Hk & HQ).
  exists b, g2. unfold bind. rewrite Hc. now split.
Qed.

Lemma returns_unit (c : M unit) (g g' : Gui) (Q : unit -> Gui -> Prop) :
  c g = Ok tt g' -> Q tt g' -> returns c g Q.
Proof. intros H HQ. now exists tt, g'. Qed.

Lemma centred_after_move (p : vec2) (s : vec2) (m : PoiMarker.t) :
  centred_at p (PoiMarker.set_position p (PoiMarker.setSize s m)).
Proof. repeat split. Qed.

Lemma centred_select (p : vec2) (m : PoiMarker.t) :
  centred_at p m -> centred_at p (PoiMarker.select m).
Proof. intros H. exact H. Qed.

Lemma centred_init (new_obj : nat) (p : vec2) (r : R) (name : string) :
  centred_at p (PoiMarker.init new_obj p r name).
Proof. repeat split. Qed.

Section Reconcile.
Variable L : Logic.
Variable poi_dict : PyDict.dict vec3.

Lemma reposition_step (name : string) (g : Gui) (m : PoiMarker.t) (p : vec3) :
  PyDict.get name (_markers g) = Some m ->
  PyDict.get name poi_dict = Some p ->
  exists g',
    reposition L poi_dict name g = Ok tt g'
    /\ next_obj g' = next_obj g
    /\ plot_items g' = plot_items g
    /\ connections g' = connections g
    /\ (forall n, PyDict.get n (_markers g')
          = if String.eqb name n then
              option_map
                (fun m => PoiMarker.set_position (xy p)
                            (PoiMarker.setSize
                               (optimise_xy_size L * sqrt 2,
                                optimise_xy_size L * sqrt 2) m))
                (PyDict.get n (_markers g))
            else PyDict.get n (_markers g)).
Proof.
  intros Hm Hp.
  unfold reposition, on_marker, marker_at, dict_item, bind, gets, modify, ret.
  rewrite Hm. cbn. rewrite Hp. cbn.
  rewrite get_adjust, String.eqb_refl, Hm. cbn.
  eexists. split; [reflexivity|]. cbn. repeat split.
  intros n. rewrite !get_adjust.
  destruct (String.eqb name n); [|reflexivity].
  now destruct (PyDict.get n (_markers g)).
Qed.

Lemma reposition_loop (l : list string) :
  forall g,
  (forall k, In k l ->
     PyDict.get k (_markers g) <> None /\ PyDict.get k poi_dict <> None) ->
  exists g',
    for_each l (reposition L poi_dict) g = Ok tt g'
    /\ next_obj g' = next_obj g
    /\ plot_items g' = plot_items g
    /\ connections g' = connections g
    /\ (forall n, PyDict.get n (_markers g) = None ->
                  PyDict.get n (_markers g') = None)
    /\ (forall n m, PyDict.get n (_markers g) = Some m ->
          exists m',
            PyDict.get n (_markers g') = Some m'
            /\ PoiMarker.obj m' = PoiMarker.obj m
            /\ (~ In n l -> m' = m)
            /\ (In n l -> forall p, PyDict.get n poi_dict = Some p ->
                          centred_at (xy p) m')).
Proof.
  induction l as [|a l IH]; intros g Hpre.
  - exists g. do 4 (split; [reflexivity|]). split; [auto|].
    intros n m Hm. exists m. split; [exact Hm|]. split; [reflexivity|].
    split; [reflexivity|]. intros [].
  - destruct (Hpre a (or_introl eq_refl)) as [Ha1 Ha2].
    destruct (PyDict.get a (_markers g)) as [ma|] eqn:Ema; [|congruence].
    destruct (PyDict.get a poi_dict) as [pa|] eqn:Epa; [|congruence].
    destruct (reposition_step a g ma pa Ema Epa)
      as (g1 & R1 & N1 & P1 & C1 & M1).
    assert (Hpre1 : forall k, In k l ->
              PyDict.get k (_markers g1) <> None
              /\ PyDict.get k poi_dict <> None).
    { intros k Hk. destruct (Hpre k (or_intror Hk)) as [H1 H2].
      split; [|exact H2]. rewrite M1.
      destruct (String.eqb a k); [|exact H1].
      destruct (PyDict.get k (_markers g)); [discriminate|congruence]. }
    destruct (IH g1 Hpre1) as (g2 & R2 & N2 & P2 & C2 & Mn2 & Ms2).
    exists g2. cbn [for_each]. unfold bind at 1. rewrite R1.
    split; [exact R2|].
    split; [congruence|]. split; [congruence|]. split; [congruence|].
    split.
    + intros n Hn. apply Mn2. rewrite M1, Hn. now destruct (String.eqb a n).
    + intros n m Hm.
      destruct (String.eqb a n) eqn:Ean.
      * apply String.eqb_eq in Ean. subst n.
        assert (Hm1 : PyDict.get a (_markers g1)
                      = Some (PoiMarker.set_position (xy pa)
                                (PoiMarker.setSize
                                   (optimise_xy_size L * sqrt 2,
                                    optimise_xy_size L * sqrt 2) m)))
          by (rewrite M1, String.eqb_refl, Hm; reflexivity).
        destruct (Ms2 a _ Hm1) as (m' & G & O & Keep & Cen).
        exists m'. split; [exact G|]. split; [exact O|].
        split; [intros Hn; exfalso; apply Hn; now left|].
        intros _ p Hp. rewrite Epa in Hp. injection Hp as <-.
        destruct (in_dec string_dec a l) as [Hin|Hnin].
        -- now apply Cen.
        -- rewrite (Keep Hnin). apply centred_after_move.
      * assert (Hm1 : PyDict.get n (_markers g1) = Some m)
          by (rewrite M1, Ean; exact Hm).
        destruct (Ms2 n m Hm1) as (m' & G & O & Keep & Cen).
        exists m'. split; [exact G|]. split; [exact O|].
        apply String.eqb_neq in Ean.
        split.
        -- intros Hn. apply Keep. intros H. apply Hn. now right.
        -- intros [E|Hin]; [congruence|]. now apply Cen.
Qed.

Lemma add_step (name : string) (g : Gui) (p : vec3) :
  name <> "" ->
  PyDict.get name poi_dict = Some p ->
  exists g',
    add_reported L poi_dict name g = Ok tt g'
    /\ (next_obj g <= next_obj g')%nat
    /\ incl (plot_items g) (plot_items g')
    /\ (forall x, In x (plot_items g') ->
                  In x (plot_items g) \/ item_from (next_obj g) x)
    /\ incl (connections g) (connections g')
    /\ (forall c, In c (connections g') ->
                  In c (connections g) \/ connection_from (next_obj g) c)
    /\ (forall n, name <> n ->
                  PyDict.get n (_markers g') = PyDict.get n (_markers g))
    /\ (forall m, PyDict.get name (_markers g) = Some m ->
                  PyDict.get name (_markers g') = Some m)
    /\ (PyDict.get name (_markers g) = None ->
        exists m',
          PyDict.get name (_markers g') = Some m'
          /\ PoiMarker.obj m' = next_obj g
          /\ next_obj g' = S (next_obj g)
          /\ centred_at (xy p) m'
          /\ attached m' g').
Proof.
  intros Hname Hp. apply String.eqb_neq in Hname.
  unfold add_reported, _add_poi_marker, dict_item, PyDict.mem, bind, gets, modify,
    do_connect.
  rewrite Hp. cbn. rewrite Hname.
  destruct (PyDict.get name (_markers g)) as [m|] eqn:Em.
  - eexists. split; [reflexivity|]. cbn.
    split; [apply Nat.le_refl|]. split; [apply incl_refl|].
    split; [auto|]. split; [apply incl_refl|]. split; [auto|].
    split; [auto|]. split; [intros m0 [= <-]; exact Em|]. discriminate.
  - eexists. split; [reflexivity|]. cbn. unfold connect.
    split; [apply Nat.le_succ_diag_r|].
    split; [intros x Hx; unfold PoiMarker.add_to_view_widget;
            rewrite !in_app_iff; auto|].
    split.
    { intros x. unfold PoiMarker.add_to_view_widget.
      rewrite !in_app_iff. cbn.
      intros [[H|[<-|[]]]|[<-|[]]]; [now left| |];
        right; exists (next_obj g); split; auto. }
    split; [intros c Hc; rewrite !in_app_iff; auto|].
    split.
    { intros c. rewrite !in_app_iff. cbn.
      intros [[H|[<-|[]]]|[<-|[]]]; [now left| |];
        right; exists (next_obj g); split; auto. }
    split.
    { intros n Hn. rewrite get_set. apply String.eqb_neq in Hn.
      now rewrite Hn. }
    split; [discriminate|].
    intros _. eexists. split; [rewrite get_set, String.eqb_refl; reflexivity|].
    split; [reflexivity|]. split; [reflexivity|].
    split; [apply centred_init|].
    unfold attached, PoiMarker.add_to_view_widget. cbn.
    rewrite !in_app_iff. cbn. auto 6.
Qed.

Lemma item_from_le (a b : nat) (x : item) :
  (a <= b)%nat -> item_from b x -> item_from a x.
Proof. intros H (i & Hi & E). exists i. split; [lia|exact E]. Qed.

Lemma connection_from_le (a b : nat) (c : connection) :
  (a <= b)%nat -> connection_from b c -> connection_from a c.
Proof. intros H (i & Hi & E). exists i. split; [lia|exact E]. Qed.

Lemma add_loop (l : list string) :
  forall g,
  (forall a, In a l -> a <> "" /\ PyDict.get a poi_dict <> None) ->
  exists g',
    for_each l (add_reported L poi_dict) g = Ok tt g'
    /\ (next_obj g <= next_obj g')%nat
    /\ incl (plot_items g) (plot_items g')
    /\ (forall x, In x (plot_items g') ->
                  In x (plot_items g) \/ item_from (next_obj g) x)
    /\ incl (connections g) (connections g')
    /\ (forall c, In c (connections g') ->
                  In c (connections g) \/ connection_from (next_obj g) c)
    /\ (forall n m, PyDict.get n (_markers g) = Some m ->
                    PyDict.get n (_markers g') = Some m)
    /\ (forall n, PyDict.get n (_markers g) = None -> ~ In n l ->
                  PyDict.get n (_markers g') = None)
    /\ (forall n p, PyDict.get n (_markers g) = None -> In n l ->
          PyDict.get n poi_dict = Some p ->
          exists m',
            PyDict.get n (_markers g') = Some m'
            /\ (next_obj g <= PoiMarker.obj m' < next_obj g')%nat
            /\ centred_at (xy p) m'
            /\ attached m' g').
Proof.
  induction l as [|a l IH]; intros g Hpre.
  - exists g. split; [reflexivity|]. split; [apply Nat.le_refl|].
    split; [apply incl_refl|]. split; [auto|]. split; [apply incl_refl|].
    split; [auto|]. split; [auto|]. split; [auto|]. intros n p _ [].
  - destruct (Hpre a (or_introl eq_refl)) as [Ha1 Ha2].
    destruct (PyDict.get a poi_dict) as [pa|] eqn:Epa; [|congruence].
    destruct (add_step a g pa Ha1 Epa)
      as (g1 & R1 & N1 & P1 & Pb1 & C1 & Cb1 & Mo1 & Ms1 & Mn1).
    destruct (IH g1 (fun x Hx => Hpre x (or_intror Hx)))
      as (g2 & R2 & N2 & P2 & Pb2 & C2 & Cb2 & Ms2 & Mn2 & Ma2).
    exists g2. cbn [for_each]. unfold bind at 1. rewrite R1.
    split; [exact R2|]. split; [lia|].
    split; [eapply incl_tran; eassumption|].
    split.
    { intros x Hx. destruct (Pb2 x Hx) as [H|H].
      - apply Pb1 in H. exact H.
      - right. eapply item_from_le; eassumption. }
    split; [eapply incl_tran; eassumption|].
    split.
    { intros c Hc. destruct (Cb2 c Hc) as [H|H].
      - apply Cb1 in H. exact H.
      - right. eapply connection_from_le; eassumption. }
    split.
    { intros n m Hm. apply Ms2.
      destruct (string_dec a n) as [<-|Hn]; [now apply Ms1|].
      rewrite (Mo1 n Hn). exact Hm. }
    split.
    { intros n Hn Hnin. apply Mn2.
      - rewrite Mo1; [exact Hn|]. intros ->. apply Hnin. now left.
      - intros H. apply Hnin. now right. }
    intros n p Hn Hin Hp.
    destruct (string_dec a n) as [<-|Hne].
    + destruct (Mn1 Hn) as (m' & G & O & Nx & Cen & (A1 & A2 & A3)).
      exists m'. split; [now apply Ms2|]. split; [lia|].
      rewrite Epa in Hp. injection Hp as <-.
      split; [exact Cen|]. repeat split; auto.
    + destruct Hin as [E|Hin]; [contradiction|].
      assert (Hn1 : PyDict.get n (_markers g1) = None)
        by (rewrite (Mo1 n Hne); exact Hn).
      destruct (Ma2 n p Hn1 Hin Hp) as (m' & G & O & Cen & Att).
      exists m'. split; [exact G|]. split; [lia|]. now split.
Qed.

Lemma show_active_step (poi_names : list string) (g : Gui) :
  (forall a, In a poi_names ->
     PyDict.get a (_markers g) <> None /\ PyDict.get a poi_dict <> None) ->
  exists g',
    show_active L poi_dict poi_names g = Ok tt g'
    /\ next_obj g' = next_obj g
    /\ plot_items g' = plot_items g
    /\ connections g' = connections g
    /\ (forall n, PyDict.get n (_markers g) = None ->
                  PyDict.get n (_markers g') = None)
    /\ (forall n m, PyDict.get n (_markers g) = Some m ->
          exists m',
            PyDict.get n (_markers g') = Some m'
            /\ PoiMarker.obj m' = PoiMarker.obj m
            /\ forall p, centred_at p m -> centred_at p m').
Proof.
  intros Hpre. unfold show_active.
  assert (Hsame : exists g' : Gui,
            on_ComboBox ComboBox.setCurrentIndex_none g = Ok tt g'
            /\ next_obj g' = next_obj g
            /\ plot_items g' = plot_items g
            /\ connections g' = connections g
            /\ (forall n, PyDict.get n (_markers g) = None ->
                          PyDict.get n (_markers g') = None)
            /\ (forall n m, PyDict.get n (_markers g) = Some m ->
                  exists m',
                    PyDict.get n (_markers g') = Some m'
                    /\ PoiMarker.obj m' = PoiMarker.obj m
                    /\ forall p, centred_at p m -> centred_at p m')).
  { eexists. split; [reflexivity|]. cbn. do 4 (split; [auto|]).
    intros n m Hm. exists m. auto. }
  destruct (active_poi L) as [active|]; [|exact Hsame].
  destruct (contains poi_names active) eqn:Ec; [|exact Hsame].
  clear Hsame. apply contains_true_iff in Ec.
  destruct (Hpre active Ec) as [H1 H2].
  destruct (PyDict.get active (_markers g)) as [ma|] eqn:Ema; [|congruence].
  destruct (PyDict.get active poi_dict) as [pa|] eqn:Epa; [|congruence].
  unfold on_ComboBox, on_marker, marker_at, dict_item, bind, gets, modify,
    ret.
  cbn. rewrite Ema. cbn. rewrite Epa.
  eexists. split; [reflexivity|]. cbn. do 3 (split; [reflexivity|]).
  split.
  - intros n Hn. rewrite get_adjust, Hn. now destruct (String.eqb active n).
  - intros n m Hm. rewrite get_adjust, Hm.
    destruct (String.eqb active n); cbn.
    + eexists. split; [reflexivity|]. split; [reflexivity|].
      intros p. apply centred_select.
    + exists m. auto.
Qed.

End Reconcile.

Lemma insert_sorted_perm (x : string) (l : list string) :
  Permutation (insert_sorted x l) (x :: l).
Proof.
  induction l as [|y r IH]; simpl; [apply Permutation_refl|].
  destruct (String.leb x y); [apply Permutation_refl|].
  eapply perm_trans; [apply perm_skip, IH|apply perm_swap].
Qed.

Lemma sort_names_perm (l : list string) : Permutation (sort_names l) l.
Proof.
  induction l as [|x l IH]; simpl; [apply perm_nil|].
  eapply perm_trans; [apply insert_sorted_perm|]. now apply perm_skip.
Qed.

Lemma stored_order_perm (l : list string) : Permutation (stored_order l) l.
Proof. apply Permutation_refl. Qed.

Lemma returns_unit_inv (c : M unit) (g : Gui) (Q : Gui -> Prop) :
  returns c g (fun _ g' => Q g') -> exists g', c g = Ok tt g' /\ Q g'.
Proof. intros ([] & g' & H & HQ). now exists g'. Qed.

(** C4, as the code has it.  When no name of the new mapping is empty,
    [_update_pois] returns normally and the keys of the marker dictionary
    are exactly the names of the mapping: a marker whose name is gone is off
    the plot widget and its click notification is disconnected; a marker
    whose name stays is the same object, centred on the reported position; a
    new name has a marker object that did not exist before, centred on the
    reported position, drawn and connected. *)
Theorem update_pois_reconciles
  (natural_sort list_of_set : list string -> list string) (L : Logic)
  (poi_dict : PyDict.dict vec3) (g : Gui) :
  (forall l, Permutation (natural_sort l) l) ->
  (forall l, Permutation (list_of_set l) l) ->
  ~ In "" (PyDict.keys poi_dict) ->
  objects_allocated g ->
  exists g',
    _update_pois natural_sort list_of_set L poi_dict g = Ok tt g'
    /\ (forall n, In n (PyDict.keys (_markers g'))
                  <-> In n (PyDict.keys poi_dict))
    /\ (forall n m, PyDict.get n (_markers g) = Some m ->
                    ~ In n (PyDict.keys poi_dict) -> detached m g')
    /\ (forall n m p, PyDict.get n (_markers g) = Some m ->
          PyDict.get n poi_dict = Some p ->
          exists m',
            PyDict.get n (_markers g') = Some m'
            /\ PoiMarker.obj m' = PoiMarker.obj m
            /\ centred_at (xy p) m')
    /\ (forall n p, PyDict.get n (_markers g) = None ->
          PyDict.get n poi_dict = Some p ->
          exists m',
            PyDict.get n (_markers g') = Some m'
            /\ (next_obj g <= PoiMarker.obj m' < next_obj g')%nat
            /\ centred_at (xy p) m'
            /\ attached m' g')
    /\ objects_allocated g'.
Proof.
  intros Hns Hls Hne Hwf.
  set (names := natural_sort (PyDict.keys poi_dict)).
  assert (Hnames : forall x, In x names <-> In x (PyDict.keys poi_dict)).
  { intros x. split; apply Permutation_in;
      [apply Hns|apply Permutation_sym, Hns]. }
  set (Dl := list_of_set
               (difference (py_set (PyDict.keys (_markers g)))
                  (py_set names))).
  set (Al := list_of_set
               (difference (py_set names)
                  (py_set (PyDict.keys (_markers g))))).
  assert (HDl : forall n, In n Dl <-> In n (PyDict.keys (_markers g))
                                      /\ ~ In n (PyDict.keys poi_dict)).
  { intros n. unfold Dl. rewrite <- Hnames.
    rewrite <- (py_set_In names n),
      <- (py_set_In (PyDict.keys (_markers g)) n), <- difference_In.
    split; apply Permutation_in;
      [apply Hls|apply Permutation_sym, Hls]. }
  assert (HAl : forall n, In n Al <-> In n (PyDict.keys poi_dict)
                                      /\ ~ In n (PyDict.keys (_markers g))).
  { intros n. unfold Al. rewrite <- Hnames.
    rewrite <- (py_set_In names n),
      <- (py_set_In (PyDict.keys (_markers g)) n), <- difference_In.
    split; apply Permutation_in;
      [apply Hls|apply Permutation_sym, Hls]. }
  assert (Hdec : forall n, In n (PyDict.keys poi_dict)
                           \/ ~ In n (PyDict.keys poi_dict)).
  { intros n. destruct (in_dec string_dec n (PyDict.keys poi_dict)); auto. }
  apply returns_unit_inv.
  unfold _update_pois, on_ComboBox.
  apply returns_bind, returns_modify.
  apply returns_bind, returns_modify.
  apply returns_bind, returns_gets. cbv zeta.
  set (ga := set_ComboBox _ (set_ComboBox _ g)).
  change (_markers ga) with (_markers g). fold names. fold Dl. fold Al.
  (* the markers to delete *)
  destruct (remove_markers_loop Dl ga)
    as (g1 & R1 & M1 & N1 & P1 & C1 & D1).
  change (_markers ga) with (_markers g) in M1, D1.
  change (next_obj ga) with (next_obj g) in N1.
  apply returns_bind. eapply returns_unit; [exact R1|].
  apply returns_bind, returns_gets.
  assert (Hkeep : forall n m, PyDict.get n (_markers g) = Some m ->
                    In n (PyDict.keys poi_dict) ->
                    PyDict.get n (_markers g1) = Some m).
  { intros n m Hm Hin. rewrite M1.
    destruct (contains Dl n) eqn:Ec; [|exact Hm].
    apply contains_true_iff, HDl in Ec. tauto. }
  assert (Hgone : forall n, ~ In n (PyDict.keys poi_dict) ->
                    PyDict.get n (_markers g1) = None).
  { intros n Hnin. rewrite M1.
    destruct (contains Dl n) eqn:Ec; [reflexivity|].
    apply contains_false_iff in Ec. apply get_none_iff_key.
    intros Hk. apply Ec, HDl. tauto. }
  (* the markers that stay *)
  destruct (reposition_loop L poi_dict (PyDict.keys (_markers g1)) g1)
    as (g2 & R2 & N2 & P2 & C2 & Mn2 & Ms2).
  { intros k Hk. apply get_some_iff_key in Hk. split; [exact Hk|].
    apply get_some_iff_key. destruct (Hdec k) as [H|H]; [exact H|].
    now rewrite (Hgone k H) in Hk. }
  apply returns_bind. eapply returns_unit; [exact R2|].
  (* the markers to add *)
  destruct (add_loop L poi_dict Al g2)
    as (g3 & R3 & N3 & P3 & Pb3 & C3 & Cb3 & Ms3 & Mn3 & Ma3).
  { intros a Ha. apply HAl in Ha as [Ha _]. split.
    - intros ->. contradiction.
    - now apply get_some_iff_key. }
  apply returns_bind. eapply returns_unit; [exact R3|].
  (* what the dictionary holds after the three loops *)
  assert (Spers : forall n m p, PyDict.get n (_markers g) = Some m ->
            PyDict.get n poi_dict = Some p ->
            exists m3, PyDict.get n (_markers g3) = Some m3
                       /\ PoiMarker.obj m3 = PoiMarker.obj m
                       /\ centred_at (xy p) m3).
  { intros n m p Hm Hp.
    assert (Hin : In n (PyDict.keys poi_dict))
      by (apply get_some_iff_key; congruence).
    destruct (Ms2 n m (Hkeep n m Hm Hin)) as (m2 & G2 & O2 & _ & Cen2).
    exists m2. split; [now apply Ms3|]. split; [exact O2|].
    apply Cen2; [|exact Hp]. apply get_some_iff_key. rewrite (Hkeep n m Hm Hin).
    discriminate. }
  assert (Snew : forall n p, PyDict.get n (_markers g) = None ->
            PyDict.get n poi_dict = Some p ->
            exists m3, PyDict.get n (_markers g3) = Some m3
                       /\ (next_obj g <= PoiMarker.obj m3 < next_obj g3)%nat
                       /\ centred_at (xy p) m3 /\ attached m3 g3).
  { intros n p Hn Hp.
    assert (Hin : In n (PyDict.keys poi_dict))
      by (apply get_some_iff_key; congruence).
    assert (Hn1 : PyDict.get n (_markers g1) = None)
      by (rewrite M1, Hn; now destruct (contains Dl n)).
    assert (HA : In n Al)
      by (apply HAl; split; [exact Hin|now apply get_none_iff_key]).
    destruct (Ma3 n p (Mn2 n Hn1) HA Hp) as (m3 & G & O & Cen & Att).
    exists m3. split; [exact G|]. split; [lia|]. now split. }
  assert (Sout : forall n, ~ In n (PyDict.keys poi_dict) ->
            PyDict.get n (_markers g3) = None).
  { intros n Hnin. apply Mn3; [apply Mn2, Hgone, Hnin|].
    intros HA. apply HAl in HA. tauto. }
  (* the active POI *)
  destruct (show_active_step L poi_dict names g3)
    as (g4 & R4 & N4 & P4 & C4 & Mn4 & Ms4).
  { intros a Ha. apply Hnames in Ha.
    assert (Hp : PyDict.get a poi_dict <> None) by now apply get_some_iff_key.
    split; [|exact Hp].
    destruct (PyDict.get a poi_dict) as [p|] eqn:Ep; [|congruence].
    destruct (PyDict.get a (_markers g)) as [m|] eqn:Em.
    - destruct (Spers a m p Em Ep) as (m3 & G & _). congruence.
    - destruct (Snew a p Em Ep) as (m3 & G & _). congruence. }
  eapply returns_unit; [exact R4|].
  split.
  { intros n. rewrite <- !get_some_iff_key.
    destruct (Hdec n) as [Hin|Hnin].
    - split; [intros _; now apply get_some_iff_key|]. intros _.
      pose proof Hin as Hp. apply get_some_iff_key in Hp.
      destruct (PyDict.get n poi_dict) as [p|] eqn:Ep; [|congruence].
      destruct (PyDict.get n (_markers g)) as [m|] eqn:Em.
      + destruct (Spers n m p Em Ep) as (m3 & G & _).
        destruct (Ms4 n m3 G) as (m4 & G4 & _). congruence.
      + destruct (Snew n p Em Ep) as (m3 & G & _).
        destruct (Ms4 n m3 G) as (m4 & G4 & _). congruence.
    - rewrite (Mn4 n (Sout n Hnin)). split; [congruence|].
      intros H. apply get_some_iff_key in H. contradiction. }
  split.
  { intros n m Hm Hnin.
    assert (HD : In n Dl).
    { apply HDl. split; [|exact Hnin]. apply get_some_iff_key. congruence. }
    destruct (D1 n m HD Hm) as (X & Y & Z).
    pose proof (Hwf n m Hm) as Hlt.
    unfold detached. rewrite P4, C4. repeat split.
    - intros H. apply Pb3 in H. rewrite P2, N2, N1 in H.
      destruct H as [H|(i & Hi & [E|E])]; [now apply X| |];
        inversion E; lia.
    - intros H. apply Pb3 in H. rewrite P2, N2, N1 in H.
      destruct H as [H|(i & Hi & [E|E])]; [now apply Y| |];
        inversion E; lia.
    - apply receivers_nil. intros c Hc. apply Cb3 in Hc.
      rewrite C2, N2, N1 in Hc.
      destruct Hc as [H|(i & Hi & [E|E])]; [now apply Z| |];
        rewrite E; intros E'; inversion E'; lia. }
  split.
  { intros n m p Hm Hp. destruct (Spers n m p Hm Hp) as (m3 & G & O & Cen).
    destruct (Ms4 n m3 G) as (m4 & G4 & O4 & Cen4).
    exists m4. split; [exact G4|]. split; [congruence|]. now apply Cen4. }
  split.
  { intros n p Hn Hp.
    destruct (Snew n p Hn Hp) as (m3 & G & O & Cen & (A1 & A2 & A3)).
    destruct (Ms4 n m3 G) as (m4 & G4 & O4 & Cen4).
    exists m4. split; [exact G4|]. rewrite O4, N4. split; [exact O|].
    split; [now apply Cen4|].
    unfold attached. rewrite O4, P4, C4. auto. }
  intros n m4 G4. rewrite N4.
  destruct (PyDict.get n (_markers g3)) as [m3|] eqn:G3;
    [|rewrite (Mn4 n G3) in G4; discriminate].
  destruct (Ms4 n m3 G3) as (m4' & G4' & O4 & _).
  rewrite G4 in G4'. injection G4' as <-. rewrite O4.
  destruct (Hdec n) as [Hin|Hnin];
    [|rewrite (Sout n Hnin) in G3; discriminate].
  apply get_some_iff_key in Hin.
  destruct (PyDict.get n poi_dict) as [p|] eqn:Ep; [|congruence].
  destruct (PyDict.get n (_markers g)) as [m|] eqn:Em.
  - destruct (Spers n m p Em Ep) as (m3' & G & O & _).
    rewrite G3 in G. injection G as <-. rewrite O.
    pose proof (Hwf n m Em). lia.
  - destruct (Snew n p Em Ep) as (m3' & G & O & _).
    rewrite G3 in G. injection G as <-. lia.
Qed.

Lemma update_pois_reconciles_witness :
  let g := final (_update_pois sort_names stored_order
                    (backend pois_b_c (Some "b")) pois_b_c new_gui) in
  exists g',
    _update_pois sort_names stored_order (backend pois_c_a (Some "c"))
      pois_c_a g = Ok tt g'
    /\ (forall n, In n (PyDict.keys (_markers g'))
                  <-> In n (PyDict.keys pois_c_a))
    /\ (forall n m, PyDict.get n (_markers g) = Some m ->
                    ~ In n (PyDict.keys pois_c_a) -> detached m g')
    /\ (forall n m p, PyDict.get n (_markers g) = Some m ->
          PyDict.get n pois_c_a = Some p ->
          exists m',
            PyDict.get n (_markers g') = Some m'
            /\ PoiMarker.obj m' = PoiMarker.obj m
            /\ centred_at (xy p) m')
    /\ (forall n p, PyDict.get n (_markers g) = None ->
          PyDict.get n pois_c_a = Some p ->
          exists m',
            PyDict.get n (_markers g') = Some m'
            /\ (next_obj g <= PoiMarker.obj m' < next_obj g')%nat
            /\ centred_at (xy p) m'
            /\ attached m' g')
    /\ objects_allocated g'.
Proof.
  intros g.
  apply (update_pois_reconciles sort_names stored_order
           (backend pois_c_a (Some "c")) pois_c_a g
           sort_names_perm stored_order_perm).
  - simpl. intros [H|[H|[]]]; discriminate.
  - destruct (update_pois_reconciles sort_names stored_order
                (backend pois_b_c (Some "b")) pois_b_c new_gui
                sort_names_perm stored_order_perm)
      as (g1 & R1 & _ & _ & _ & _ & W).
    + simpl. intros [H|[H|[]]]; discriminate.
    + intros n m H. discriminate.
    + unfold g. rewrite R1. exact W.
Defined.

(** C4 as stated fails: a POI under the empty name gets no marker, so the
    keys of the marker dictionary are not the names of the mapping. *)
Lemma update_pois_skips_empty_name :
  let r := _update_pois sort_names stored_order
             (backend pois_empty_name None) pois_empty_name new_gui in
  raised r = None
  /\ PyDict.keys pois_empty_name = [""]
  /\ PyDict.keys (_markers (final r)) = [].
Proof. repeat split; reflexivity. Qed.

(** The scenario of the specification: markers b and c, new mapping c and
    a.  Afterwards the keys are c and a, c is the object it was, a is a new
    object, and the two items of b are off the plot widget. *)
Example reconcile_b_c_with_c_a :
  let g := final (_update_pois sort_names stored_order
                    (backend pois_b_c (Some "b")) pois_b_c new_gui) in
  let r := _update_pois sort_names stored_order
             (backend pois_c_a (Some "c")) pois_c_a g in
  map (fun km => (fst km, PoiMarker.obj (snd km))) (_markers g)
  = [("b", 0%nat); ("c", 1%nat)]
  /\ raised r = None
  /\ map (fun km => (fst km, PoiMarker.obj (snd km))) (_markers (final r))
     = [("c", 1%nat); ("a", 2%nat)]
  /\ plot_items (final r) = [Shape 1; Label 1; Shape 2; Label 2]
  /\ receivers (marker_sigPoiSelected 0) (connections (final r)) = []
  /\ selected_names (final r) = ["c"].
Proof. repeat split; reflexivity. Qed.

(* ================================================================== *)
(** * Part III: further properties of the code *)

(** ** The validator on every input *)

Section ValidatorMore.
Import NameValidator.
Variable word : N -> bool.

Lemma word_run_is_word (s : pystr) : forallb word (word_run word s) = true.
Proof.
  induction s as [|c r IH]; simpl; [reflexivity|].
  destruct (word c) eqn:E; simpl; [now rewrite E|reflexivity].
Qed.

Lemma word_run_prefix (s : pystr) :
  exists rest,
    s = word_run word s ++ rest
    /\ forall c r, rest = c :: r -> word c = false.
Proof.
  induction s as [|c r (rest & E & H)]; simpl.
  - exists []. split; [reflexivity|discriminate].
  - destruct (word c) eqn:Ec.
    + exists rest. split; [simpl; now rewrite <- E|exact H].
    + exists (c :: r). split; [reflexivity|].
      intros c' r' [= <- <-]. exact Ec.
Qed.

Lemma first_mismatch (s : pystr) :
  forallb word s = false ->
  exists p c rest,
    s = p ++ c :: rest /\ forallb word p = true /\ word c = false.
Proof.
  induction s as [|a s IH]; simpl; [discriminate|].
  destruct (word a) eqn:Ea; simpl.
  - intros H. destruct (IH H) as (p & c & rest & -> & Hp & Hc).
    exists (a :: p), c, rest. simpl. rewrite Ea. auto.
  - intros _. exists [], a, s. auto.
Qed.

Lemma forallb_false_existsb (s : pystr) :
  forallb word s = false <-> existsb (fun c => negb (word c)) s = true.
Proof.
  induction s as [|a s IH]; simpl; [split; discriminate|].
  destruct (word a); simpl; [exact IH|tauto].
Qed.

(** The three states on every input: Acceptable exactly for the empty string
    with [empty_allowed] and for a non-empty string of word characters,
    Intermediate exactly for the empty string without [empty_allowed],
    Invalid exactly when some character is not a word character. *)
Theorem validate_state_characterised (empty_allowed : bool) (s : pystr)
  (position : Z) :
  let state := fst (fst (validate word empty_allowed s position)) in
  (state = Acceptable
   <-> (s = [] /\ empty_allowed = true)
       \/ (s <> [] /\ forallb word s = true))
  /\ (state = Intermediate <-> s = [] /\ empty_allowed = false)
  /\ (state = Invalid <-> existsb (fun c => negb (word c)) s = true).
Proof.
  cbv zeta. destruct s as [|a s].
  - destruct empty_allowed; simpl; repeat split; intros;
      try discriminate; try tauto; try (left; now split);
      match goal with
      | H : _ \/ _ |- _ => destruct H as [[? ?]|[? ?]]; congruence
      | H : _ /\ _ |- _ => destruct H; congruence
      end.
  - destruct (forallb word (a :: s)) eqn:E.
    + rewrite validate_all_word by (congruence || exact E). simpl fst.
      assert (Hex : existsb (fun c => negb (word c)) (a :: s) = false).
      { destruct (existsb (fun c => negb (word c)) (a :: s)) eqn:X;
          [|reflexivity].
        apply forallb_false_existsb in X. congruence. }
      rewrite Hex. repeat split; intros; try discriminate.
      * right. split; [discriminate|reflexivity].
      * destruct H; discriminate.
    + destruct (first_mismatch _ E) as (p & c & rest & Hs & Hp & Hc).
      rewrite Hs, (validate_first_mismatch word empty_allowed p c rest
                     position Hp Hc). simpl fst. rewrite <- Hs.
      apply forallb_false_existsb in E. rewrite E.
      repeat split; intros; try discriminate; try reflexivity.
      * destruct H as [[? _]|[_ H]]; [discriminate|].
        apply forallb_false_existsb in E. congruence.
      * destruct H; discriminate.
Qed.

(** What [validate] hands back: the cursor position it was given, and the
    longest prefix of the input that consists of word characters (the whole
    input unless the state is Invalid). *)
Theorem validate_returns_word_prefix (empty_allowed : bool) (s : pystr)
  (position : Z) :
  let out := snd (fst (validate word empty_allowed s position)) in
  snd (validate word empty_allowed s position) = position
  /\ forallb word out = true
  /\ exists rest,
       s = out ++ rest /\ forall c r, rest = c :: r -> word c = false.
Proof.
  cbv zeta. destruct s as [|a s].
  - destruct empty_allowed; simpl; repeat split; exists [];
      (split; [reflexivity|discriminate]).
  - destruct (forallb word (a :: s)) eqn:E.
    + rewrite validate_all_word by (congruence || exact E). simpl.
      split; [reflexivity|]. split; [exact E|].
      exists []. rewrite app_nil_r. split; [reflexivity|discriminate].
    + destruct (first_mismatch _ E) as (p & c & rest & Hs & Hp & Hc).
      rewrite Hs, (validate_first_mismatch word empty_allowed p c rest
                     position Hp Hc). simpl.
      split; [reflexivity|]. split; [exact Hp|].
      exists (c :: rest). split; [reflexivity|].
      intros c' r' [= <- <-]. exact Hc.
Qed.

Lemma search_spec (text : pystr) :
  match name_re_search word text with
  | Some m =>
      m <> []
      /\ exists junk rest,
           text = junk ++ m ++ rest
           /\ forallb (fun c => negb (word c)) junk = true
           /\ forallb word m = true
           /\ forall c r, rest = c :: r -> word c = false
  | None => forallb (fun c => negb (word c)) text = true
  end.
Proof.
  induction text as [|a t IH]; simpl; [reflexivity|].
  destruct (word a) eqn:Ea; simpl.
  - split; [discriminate|].
    destruct (word_run_prefix t) as (rest & E & H).
    exists [], rest. simpl. rewrite Ea, word_run_is_word, <- E. auto.
  - destruct (name_re_search word t) as [m|]; [|exact IH].
    destruct IH as (Hm & junk & rest & E & Hj & Hw & Hr).
    split; [exact Hm|]. exists (a :: junk), rest. simpl.
    rewrite Ea, Hj, E. auto.
Qed.

(** [fixup] returns the first run of word characters of the text, whole:
    before it there are no word characters, after it the text ends or goes
    on with a character that is not one; it returns the empty string exactly
    when the text has no word character. *)
Theorem fixup_returns_first_run (text : pystr) :
  (exists junk rest,
     text = junk ++ fixup word text ++ rest
     /\ forallb (fun c => negb (word c)) junk = true
     /\ forallb word (fixup word text) = true
     /\ forall c r, rest = c :: r -> word c = false)
  /\ (fixup word text = []
      <-> forallb (fun c => negb (word c)) text = true).
Proof.
  unfold fixup. pose proof (search_spec text) as H.
  destruct (name_re_search word text) as [m|].
  - destruct H as (Hm & junk & rest & E & Hj & Hw & Hr). split.
    + exists junk, rest. auto.
    + split; [congruence|]. intros Hall. exfalso.
      rewrite E, forallb_app, forallb_app in Hall.
      apply andb_true_iff in Hall as [_ Hall].
      apply andb_true_iff in Hall as [Hall _].
      destruct m as [|c m]; [congruence|]. simpl in Hall, Hw.
      apply andb_true_iff in Hall as [Hc _].
      apply andb_true_iff in Hw as [Hc' _].
      rewrite Hc' in Hc. discriminate.
  - split; [|tauto]. exists text, []. simpl. rewrite app_nil_r.
    repeat split; auto. discriminate.
Qed.

(** What [fixup] returns is a fixed point of [fixup], and when it is not
    empty [validate] finds it Acceptable. *)
Theorem fixup_is_acceptable (empty_allowed : bool) (text : pystr)
  (position : Z) :
  fixup word (fixup word text) = fixup word text
  /\ (fixup word text <> [] ->
      validate word empty_allowed (fixup word text) position
      = (Acceptable, fixup word text, position)).
Proof.
  assert (Hw : forallb word (fixup word text) = true).
  { destruct (fixup_returns_first_run text) as [(junk & rest & _ & _ & H & _) _].
    exact H. }
  split.
  - destruct (fixup word text) as [|c m] eqn:E; [reflexivity|].
    unfold fixup at 1. simpl in *.
    apply andb_true_iff in Hw as [Hc Hm]. rewrite Hc.
    now rewrite (word_run_all word m Hm).
  - intros Hne. now apply validate_all_word.
Qed.

End ValidatorMore.

Lemma fixup_is_acceptable_witness :
  let word := NameValidator.uni_word (fun _ => false) in
  let text := NameValidator.of_string "  my poi!" in
  NameValidator.fixup word text = NameValidator.of_string "my"
  /\ NameValidator.validate word false (NameValidator.fixup word text) 0
     = (NameValidator.Acceptable, NameValidator.fixup word text, 0%Z).
Proof.
  split; [reflexivity|].
  apply (proj2 (fixup_is_acceptable (NameValidator.uni_word (fun _ => false))
                  false (NameValidator.of_string "  my poi!") 0)).
  discriminate.
Defined.

(* ------------------------------------------------------------------ *)
(** ** Marker operations together *)

(** Resizing keeps the marker centred on its position, and resizing and
    moving can be done in either order. *)
Theorem marker_resize_and_move (r : R) (p : vec2) (m : PoiMarker.t) :
  centred_at (PoiMarker.position m) (PoiMarker.set_radius r m)
  /\ PoiMarker.set_radius r (PoiMarker.set_position p m)
     = PoiMarker.set_position p (PoiMarker.set_radius r m).
Proof.
  unfold centred_at, PoiMarker.set_radius, PoiMarker.set_position,
    PoiMarker.setSize, PoiMarker.radius, PoiMarker.position.
  cbn [PoiMarker.roi_pos PoiMarker.label_pos PoiMarker.roi_size
       PoiMarker._position PoiMarker.obj PoiMarker._poi_name
       PoiMarker._selected PoiMarker.roi_pen PoiMarker.label_text
       PoiMarker.label_color fst snd].
  rewrite !twice_half. repeat split; reflexivity.
Qed.

Lemma filter_all {A : Type} (f : A -> bool) (l : list A) :
  (forall x, In x l -> f x = true) -> filter f l = l.
Proof.
  induction l as [|a l IH]; simpl; intros H; [reflexivity|].
  rewrite (H a (or_introl eq_refl)). f_equal. apply IH.
  intros x Hx. apply H. now right.
Qed.

Lemma remove_item_app (x : item) (l1 l2 : list item) :
  PoiMarker.remove_item x (l1 ++ l2)
  = PoiMarker.remove_item x l1 ++ PoiMarker.remove_item x l2.
Proof. apply filter_app. Qed.

Lemma remove_item_absent (x : item) (l : list item) :
  ~ In x l -> PoiMarker.remove_item x l = l.
Proof.
  intros H. apply filter_all. intros y Hy. apply negb_true_iff.
  destruct (item_eqb x y) eqn:E; [|reflexivity].
  apply item_eqb_eq in E. subst. contradiction.
Qed.

(** Taking a marker off the plot widget undoes putting it there: what was
    drawn before is drawn again, in the same order.  In general the two
    items of the marker are gone and nothing else is. *)
Theorem view_add_then_delete (m : PoiMarker.t) (view : list item) :
  PoiMarker.delete_from_view_widget m (PoiMarker.add_to_view_widget m view)
  = PoiMarker.delete_from_view_widget m view
  /\ (~ In (Shape (PoiMarker.obj m)) view ->
      ~ In (Label (PoiMarker.obj m)) view ->
      PoiMarker.delete_from_view_widget m
        (PoiMarker.add_to_view_widget m view) = view).
Proof.
  assert (E : PoiMarker.delete_from_view_widget m
                (PoiMarker.add_to_view_widget m view)
              = PoiMarker.delete_from_view_widget m view).
  { unfold PoiMarker.delete_from_view_widget, PoiMarker.add_to_view_widget.
    rewrite !remove_item_app. unfold PoiMarker.remove_item at 2 3 5.
    simpl. rewrite !Nat.eqb_refl. simpl. now rewrite !app_nil_r. }
  split; [exact E|]. intros HS HL. rewrite E.
  unfold PoiMarker.delete_from_view_widget.
  now rewrite (remove_item_absent _ _ HL), (remove_item_absent _ _ HS).
Qed.

Lemma view_add_then_delete_witness :
  PoiMarker.delete_from_view_widget (PoiMarker.init 2 (0, 0) 1 "a")
    (PoiMarker.add_to_view_widget (PoiMarker.init 2 (0, 0) 1 "a")
       [Shape 1; Label 1])
  = [Shape 1; Label 1].
Proof.
  apply (proj2 (view_add_then_delete (PoiMarker.init 2 (0, 0) 1 "a")
                  [Shape 1; Label 1]));
    simpl; intros [H|[H|[]]]; discriminate.
Defined.

(* ------------------------------------------------------------------ *)
(** ** What the notification handlers never do *)

Lemma display_only_refl (g : Gui) : display_only g g.
Proof. repeat split. Qed.

Lemma display_only_trans (g1 g2 g3 : Gui) :
  display_only g1 g2 -> display_only g2 g3 -> display_only g1 g3.
Proof.
  intros (A1 & B1 & C1) (A2 & B2 & C2). repeat split; try congruence.
  intros s Hs. rewrite (C2 s Hs). now apply C1.
Qed.

Lemma marker_signal_beq_clicked (i : nat) (s : signal) :
  marker_signal s = false -> signal_beq (marker_sigClicked i) s = false.
Proof.
  intros H. destruct (signal_beq (marker_sigClicked i) s) eqn:E;
    [|reflexivity].
  apply signal_beq_eq in E. subst s. discriminate.
Qed.

Lemma marker_signal_beq_selected (i : nat) (s : signal) :
  marker_signal s = false -> signal_beq (marker_sigPoiSelected i) s = false.
Proof.
  intros H. destruct (signal_beq (marker_sigPoiSelected i) s) eqn:E;
    [|reflexivity].
  apply signal_beq_eq in E. subst s. discriminate.
Qed.

Ltac display_only_modify :=
  match goal with
  | |- keeps _ (modify _) =>
      apply keeps_modify; intros ?; unfold display_only; cbn;
      do 2 (split; [reflexivity|]); intros ? ?;
      rewrite ?receivers_connect, ?receivers_disconnect,
        ?marker_signal_beq_clicked, ?marker_signal_beq_selected
        by assumption;
      rewrite ?app_nil_r; reflexivity
  end.

Ltac display_only_tac :=
  pose proof display_only_refl; pose proof display_only_trans;
  frame_steps; display_only_modify.

(** Whatever they are given, and whether they return or raise, the handlers
    of the backend notifications send no command to the backend, leave the
    POI selector as it is, and change the connections of no signal other
    than those of the markers. *)
Theorem notification_handlers_display_only
  (natural_sort list_of_set : list string -> list string) (L : Logic)
  (g : Gui) :
  (forall old_name new_name position,
     display_only g
       (final (update_poi natural_sort L old_name new_name position g)))
  /\ (forall name, display_only g (final (update_active_poi L name g)))
  /\ (forall roi_dict,
        display_only g
          (final (update_roi natural_sort list_of_set L roi_dict g))).
Proof.
  assert (Hh : forall h, keeps display_only (_update_roi_history L h)).
  { intros h. unfold _update_roi_history. display_only_tac. }
  assert (Hp : forall d,
             keeps display_only (_update_pois natural_sort list_of_set L d)).
  { intros d.
    unfold _update_pois, _add_poi_marker, _remove_poi_marker, on_marker,
      marker_at, on_ComboBox, dict_item, do_connect, do_disconnect.
    display_only_tac. }
  split; [|split].
  - intros old_name new_name position. revert g.
    change (keeps display_only
              (update_poi natural_sort L old_name new_name position)).
    unfold update_poi, _add_poi_marker, _remove_poi_marker, on_marker,
      marker_at, on_ComboBox, dict_item, do_connect, do_disconnect.
    display_only_tac.
  - intros name. revert g.
    change (keeps display_only (update_active_poi L name)).
    unfold update_active_poi, on_marker, marker_at, on_ComboBox.
    display_only_tac.
  - intros roi_dict. revert g.
    change (keeps display_only
              (update_roi natural_sort list_of_set L roi_dict)).
    unfold update_roi. destruct roi_dict as [|d].
    + display_only_tac.
    + pose proof display_only_refl. pose proof display_only_trans.
      apply keeps_bind; [assumption| |intros _].
      * destruct (roi_history d); [apply Hh|now apply keeps_ret].
      * destruct (roi_pois d); [apply Hp|now apply keeps_ret].
Qed.

(* ------------------------------------------------------------------ *)
(** ** A new active POI *)

Lemma findText_nth (text : string) (l : list string) (i : nat) :
  ComboBox.findText text l = Some i -> nth i l "" = text.
Proof.
  revert i. induction l as [|x l IH]; simpl; intros i; [discriminate|].
  destruct (String.eqb x text) eqn:E.
  - intros [= <-]. now apply String.eqb_eq.
  - destruct (ComboBox.findText text l) as [j|]; [|discriminate].
    intros [= <-]. now apply IH.
Qed.

Lemma findText_In (text : string) (l : list string) :
  In text l -> exists i, ComboBox.findText text l = Some i.
Proof.
  induction l as [|x l IH]; simpl; [intros []|].
  destruct (String.eqb x text) eqn:E; [eexists; reflexivity|].
  intros [->|H]; [now rewrite String.eqb_refl in E|].
  destruct (IH H) as (i & ->). eexists. reflexivity.
Qed.

Lemma setCurrentText_shown (text : string) (cb : ComboBox.t) :
  In text (ComboBox.items cb) ->
  ComboBox.currentText (ComboBox.setCurrentText text cb) = text.
Proof.
  intros H. unfold ComboBox.setCurrentText.
  destruct (findText_In text _ H) as (i & E). rewrite E.
  unfold ComboBox.currentText. simpl. now apply findText_nth.
Qed.

Lemma setCurrentText_items (text : string) (cb : ComboBox.t) :
  ComboBox.items (ComboBox.setCurrentText text cb) = ComboBox.items cb.
Proof.
  unfold ComboBox.setCurrentText.
  now destruct (ComboBox.findText text (ComboBox.items cb)).
Qed.

Lemma on_marker_run (name : string) (f : PoiMarker.t -> PoiMarker.t)
  (g : Gui) :
  on_marker name f g
  = match PyDict.get name (_markers g) with
    | Some _ => Ok tt (set_markers (PyDict.adjust f name (_markers g)) g)
    | None => Raise (KeyError name) g
    end.
Proof.
  unfold on_marker, marker_at, bind, gets, modify, ret, raise.
  now destruct (PyDict.get name (_markers g)).
Qed.

Lemma get_deselect_first (n : string) (d : PyDict.dict PoiMarker.t) :
  exists f,
    PyDict.get n (deselect_first d) = option_map f (PyDict.get n d)
    /\ (f = PoiMarker.deselect \/ f = (fun m => m)).
Proof.
  induction d as [|[k m] d (f & E & Hf)]; simpl.
  - exists (fun m => m). auto.
  - destruct (PoiMarker.selected m); simpl.
    + destruct (String.eqb k n).
      * exists PoiMarker.deselect. auto.
      * exists (fun m => m). split; [|auto].
        now destruct (PyDict.get n d).
    + destruct (String.eqb k n); [exists (fun m => m); auto|].
      exists f. auto.
Qed.

Lemma keys_deselect_first (d : PyDict.dict PoiMarker.t) :
  PyDict.keys (deselect_first d) = PyDict.keys d.
Proof.
  induction d as [|[k m] d IH]; simpl; [reflexivity|].
  destruct (PoiMarker.selected m); simpl; [reflexivity|].
  f_equal. exact IH.
Qed.

Lemma keys_adjust (f : PoiMarker.t -> PoiMarker.t) (k : string)
  (d : PyDict.dict PoiMarker.t) :
  PyDict.keys (PyDict.adjust f k d) = PyDict.keys d.
Proof.
  induction d as [|[k' m] d IH]; simpl; [reflexivity|].
  destruct (String.eqb k' k); simpl; [reflexivity|]. f_equal. exact IH.
Qed.

Lemma mem_deselect_first (n : string) (d : PyDict.dict PoiMarker.t) :
  PyDict.mem n (deselect_first d) = PyDict.mem n d.
Proof.
  unfold PyDict.mem. destruct (get_deselect_first n d) as (f & -> & _).
  now destruct (PyDict.get n d).
Qed.

Lemma deselect_first_none (d : PyDict.dict PoiMarker.t) :
  (List.length (filter (fun km => PoiMarker.selected (snd km)) d) <= 1)%nat ->
  filter (fun km => PoiMarker.selected (snd km)) (deselect_first d) = [].
Proof.
  induction d as [|[k m] d IH]; simpl; [reflexivity|].
  destruct (PoiMarker.selected m) eqn:E; simpl.
  - intros H.
    destruct (filter (fun km => PoiMarker.selected (snd km)) d) eqn:F;
      [reflexivity|simpl in H; lia].
  - rewrite E. exact IH.
Qed.

Lemma adjust_keeps_unselected (f : PoiMarker.t -> PoiMarker.t)
  (name : string) (d : PyDict.dict PoiMarker.t) :
  (forall m, PoiMarker.selected (f m) = PoiMarker.selected m) ->
  filter (fun km => PoiMarker.selected (snd km)) d = [] ->
  filter (fun km => PoiMarker.selected (snd km)) (PyDict.adjust f name d)
  = [].
Proof.
  intros Hf. induction d as [|[k m] d IH]; simpl; [reflexivity|].
  destruct (PoiMarker.selected m) eqn:E; [discriminate|]. intros F.
  destruct (String.eqb k name); simpl.
  - now rewrite Hf, E.
  - rewrite E. now apply IH.
Qed.

Lemma adjust_select_only (name : string) (d : PyDict.dict PoiMarker.t) :
  filter (fun km => PoiMarker.selected (snd km)) d = [] ->
  map fst (filter (fun km => PoiMarker.selected (snd km))
             (PyDict.adjust PoiMarker.select name d))
  = if PyDict.mem name d then [name] else [].
Proof.
  unfold PyDict.mem.
  induction d as [|[k m] d IH]; simpl; [reflexivity|].
  destruct (PoiMarker.selected m) eqn:E; [discriminate|]. intros F.
  destruct (String.eqb k name) eqn:Ek; simpl.
  - rewrite F. apply String.eqb_eq in Ek. now subst.
  - rewrite E. now apply IH.
Qed.

Lemma shown_after_update_active_poi (name : string) (cb : ComboBox.t) :
  let cb' := if String.eqb name "" then ComboBox.setCurrentIndex_none cb
             else ComboBox.setCurrentText name cb in
  ComboBox.items cb' = ComboBox.items cb
  /\ (name = "" -> ComboBox.currentText cb' = "")
  /\ (In name (ComboBox.items cb) -> ComboBox.currentText cb' = name).
Proof.
  cbv zeta. destruct (String.eqb name "") eqn:En.
  - apply String.eqb_eq in En. subst name. repeat split.
  - split; [apply setCurrentText_items|].
    split; [intros ->; discriminate|apply setCurrentText_shown].
Qed.

Lemma update_active_poi_run (L : Logic) (name : string) (g : Gui) :
  update_active_poi L name g
  = Ok tt
      (set_markers
         (if PyDict.mem name (_markers g) then
            PyDict.adjust PoiMarker.select name
              (PyDict.adjust
                 (PoiMarker.set_radius (optimise_xy_size L / sqrt 2)) name
                 (deselect_first (_markers g)))
          else deselect_first (_markers g))
         (set_poi_coords_label
            (if String.eqb name "" then (0, 0, 0)
             else get_poi_position L name)
            (set_ComboBox
               (if String.eqb name "" then
                  ComboBox.setCurrentIndex_none (active_poi_ComboBox g)
                else ComboBox.setCurrentText name (active_poi_ComboBox g))
               g))).
Proof.
  unfold update_active_poi, on_ComboBox, bind, modify, gets.
  destruct (String.eqb name "");
    cbn [_markers set_markers set_ComboBox set_poi_coords_label];
    rewrite mem_deselect_first;
    (destruct (PyDict.mem name (_markers g)) eqn:Em; [|reflexivity]);
    rewrite <- (mem_deselect_first name) in Em; unfold PyDict.mem in Em;
    (destruct (PyDict.get name (deselect_first (_markers g))) as [m|] eqn:E;
       [|discriminate]);
    rewrite on_marker_run;
    cbn [_markers set_markers set_ComboBox set_poi_coords_label];
    rewrite E, on_marker_run; cbn [_markers set_markers];
    rewrite get_adjust, String.eqb_refl, E; reflexivity.
Qed.

(** [update_active_poi] returns normally for every name, known or not.  It
    keeps the keys of the marker dictionary, the plot items, the
    connections and the log; the combo box keeps its items and shows the
    name if it is one of them, and nothing for the empty name. *)
Theorem update_active_poi_returns (L : Logic) (name : string) (g : Gui) :
  exists g',
    update_active_poi L name g = Ok tt g'
    /\ PyDict.keys (_markers g') = PyDict.keys (_markers g)
    /\ plot_items g' = plot_items g
    /\ connections g' = connections g
    /\ log g' = log g
    /\ ComboBox.items (active_poi_ComboBox g')
       = ComboBox.items (active_poi_ComboBox g)
    /\ (name = "" -> ComboBox.currentText (active_poi_ComboBox g') = "")
    /\ (In name (ComboBox.items (active_poi_ComboBox g)) ->
        ComboBox.currentText (active_poi_ComboBox g') = name).
Proof.
  pose proof (shown_after_update_active_poi name (active_poi_ComboBox g))
    as Hcb. cbv zeta in Hcb.
  eexists. split; [apply update_active_poi_run|].
  cbn [_markers plot_items connections log active_poi_ComboBox set_markers
       set_ComboBox set_poi_coords_label].
  split.
  { destruct (PyDict.mem name (_markers g));
      now rewrite ?keys_adjust, keys_deselect_first. }
  do 3 (split; [reflexivity|]). exact Hcb.
Qed.

(** When at most one marker is selected, [update_active_poi] leaves exactly
    the marker of the name selected, or none if the name has no marker; if
    the name is also an item of the combo box, the selected marker is the
    one the combo box shows. *)
Theorem update_active_poi_selects (L : Logic) (name : string) (g : Gui) :
  (List.length (selected_names g) <= 1)%nat ->
  let g' := final (update_active_poi L name g) in
  selected_names g' = (if PyDict.mem name (_markers g) then [name] else [])
  /\ (PyDict.mem name (_markers g) = true ->
      In name (ComboBox.items (active_poi_ComboBox g)) ->
      selected_names g' = [ComboBox.currentText (active_poi_ComboBox g')]).
Proof.
  intros Hsel. cbv zeta.
  assert (Hnone : filter (fun km => PoiMarker.selected (snd km))
                    (deselect_first (_markers g)) = []).
  { apply deselect_first_none. unfold selected_names in Hsel.
    now rewrite length_map in Hsel. }
  rewrite update_active_poi_run. cbn [final]. unfold selected_names.
  cbn [_markers active_poi_ComboBox set_markers set_ComboBox
       set_poi_coords_label].
  assert (Hmain : map fst
            (filter (fun km => PoiMarker.selected (snd km))
               (if PyDict.mem name (_markers g) then
                  PyDict.adjust PoiMarker.select name
                    (PyDict.adjust
                       (PoiMarker.set_radius (optimise_xy_size L / sqrt 2))
                       name (deselect_first (_markers g)))
                else deselect_first (_markers g)))
          = if PyDict.mem name (_markers g) then [name] else []).
  { destruct (PyDict.mem name (_markers g)) eqn:Em.
    - rewrite adjust_select_only
        by (apply adjust_keeps_unselected; [reflexivity|exact Hnone]).
      unfold PyDict.mem. rewrite get_adjust, String.eqb_refl.
      rewrite <- (mem_deselect_first name) in Em. unfold PyDict.mem in Em.
      now destruct (PyDict.get name (deselect_first (_markers g))).
    - now rewrite Hnone. }
  split; [exact Hmain|].
  intros Hm Hin. etransitivity; [exact Hmain|]. rewrite Hm.
  destruct (shown_after_update_active_poi name (active_poi_ComboBox g))
    as (_ & _ & Hshown).
  f_equal. symmetry. exact (Hshown Hin).
Qed.

Lemma update_active_poi_selects_witness :
  let g := final (_update_pois sort_names stored_order
                    (backend two_pois (Some "A")) two_pois new_gui) in
  let g' := final (update_active_poi (backend two_pois (Some "B")) "B" g) in
  selected_names g'
  = (if PyDict.mem "B" (_markers g) then ["B"] else [])
  /\ (PyDict.mem "B" (_markers g) = true ->
      In "B" (ComboBox.items (active_poi_ComboBox g)) ->
      selected_names g' = [ComboBox.currentText (active_poi_ComboBox g')]).
Proof.
  intros g.
  apply (update_active_poi_selects (backend two_pois (Some "B")) "B" g).
  apply Nat.eq_le_incl. reflexivity.
Defined.

(* ------------------------------------------------------------------ *)
(** ** The POI selector *)


(* ------------------------------------------------------------------ *)
(** ** What deactivation disconnects *)














(* ------------------------------------------------------------------ *)
(** ** One POI added, deleted or renamed *)

Lemma set_ComboBox_id (g : Gui) : set_ComboBox (active_poi_ComboBox g) g = g.
Proof. now destruct g. Qed.

Lemma bind_final {A B : Type} (c : M A) (k : A -> M B) (g : Gui) :
  final (bind c k g)
  = match c g with
    | Ok a g1 => final (k a g1)
    | Raise _ g1 => g1
    end.
Proof. unfold bind. now destruct (c g). Qed.


Lemma update_poi_parts (natural_sort : list string -> list string)
  (L : Logic) (old_name new_name : string) (position : vec3) (g : Gui) :
  update_poi natural_sort L old_name new_name position g
  = (refill_ComboBox natural_sort L old_name new_name ;;
     update_marker L old_name new_name position ;;
     select_shown) g.
Proof. reflexivity. Qed.

Lemma refill_ComboBox_run (natural_sort : list string -> list string)
  (L : Logic) (old_name new_name : string) (g : Gui) :
  exists cb,
    refill_ComboBox natural_sort L old_name new_name g
    = Ok tt (set_ComboBox cb g).
Proof.
  unfold refill_ComboBox, on_ComboBox, bind, gets, modify, ret.
  destruct (negb (String.eqb old_name new_name)).
  - destruct (String.eqb
                (ComboBox.currentText (active_poi_ComboBox g)) old_name);
      eexists; reflexivity.
  - exists (active_poi_ComboBox g). now rewrite set_ComboBox_id.
Qed.

Lemma select_shown_run (g : Gui) :
  select_shown g
  = let active := ComboBox.currentText (active_poi_ComboBox g) in
    if String.eqb active "" then Ok tt g
    else match PyDict.get active (_markers g) with
         | Some _ =>
             Ok tt (set_markers
                      (PyDict.adjust PoiMarker.select active (_markers g)) g)
         | None => Raise (KeyError active) g
         end.
Proof.
  unfold select_shown, bind, gets. cbv zeta.
  destruct (String.eqb (ComboBox.currentText (active_poi_ComboBox g)) "");
    [reflexivity|apply on_marker_run].
Qed.

(** What the last part of [update_poi] can do to the state. *)
Lemma select_shown_effect (g : Gui) :
  let r := select_shown g in
  next_obj (final r) = next_obj g
  /\ plot_items (final r) = plot_items g
  /\ connections (final r) = connections g
  /\ log (final r) = log g
  /\ (forall n, PyDict.get n (_markers g) = None ->
                PyDict.get n (_markers (final r)) = None)
  /\ (forall n m, PyDict.get n (_markers g) = Some m ->
        PyDict.get n (_markers (final r)) = Some m
        \/ PyDict.get n (_markers (final r)) = Some (PoiMarker.select m))
  /\ (raised r = None
      \/ exists k, raised r = Some (KeyError k)
                   /\ PyDict.get k (_markers (final r)) = None).
Proof.
  cbv zeta. rewrite select_shown_run. cbv zeta.
  destruct (String.eqb (ComboBox.currentText (active_poi_ComboBox g)) "").
  - cbn. repeat split; auto.
  - destruct (PyDict.get (ComboBox.currentText (active_poi_ComboBox g))
                (_markers g)) eqn:E; cbn.
    + do 4 (split; [reflexivity|]). split; [|split; [|now left]].
      * intros n Hn. rewrite get_adjust, Hn.
        now destruct (String.eqb _ n).
      * intros n m Hm. rewrite get_adjust, Hm.
        destruct (String.eqb _ n); cbn; auto.
    + do 4 (split; [reflexivity|]). split; [auto|]. split; [auto|].
      right. eexists. split; [reflexivity|exact E].
Qed.

Lemma rekey_marker_run (L : Logic) (old_name new_name : string)
  (position : vec3) (g : Gui) :
  match PyDict.get old_name (_markers g) with
  | Some m =>
      exists g',
        rekey_marker L old_name new_name position g = Ok tt g'
        /\ next_obj g' = next_obj g
        /\ plot_items g' = plot_items g
        /\ connections g' = connections g
        /\ log g' = log g
        /\ forall n,
             PyDict.get n (_markers g')
             = if String.eqb new_name n then
                 Some (PoiMarker.set_position (xy position)
                         (PoiMarker.setSize
                            (optimise_xy_size L * sqrt 2,
                             optimise_xy_size L * sqrt 2)
                            (PoiMarker.set_name new_name m)))
               else if String.eqb old_name n then None
               else PyDict.get n (_markers g)
  | None =>
      rekey_marker L old_name new_name position g
      = Raise (KeyError old_name) g
  end.
Proof.
  unfold rekey_marker. cbv zeta.
  destruct (PyDict.get old_name (_markers g)) as [m|] eqn:E.
  - unfold bind at 1. rewrite on_marker_run, E.
    unfold bind at 1. unfold marker_at, bind at 1, gets at 1.
    cbn [_markers set_markers].
    rewrite get_adjust, String.eqb_refl, E. cbn [option_map ret].
    unfold bind at 1. unfold modify at 1.
    unfold bind at 1. unfold modify at 1.
    cbn [_markers set_markers].
    unfold bind at 1. rewrite on_marker_run. cbn [_markers set_markers].
    rewrite get_set, String.eqb_refl.
    rewrite on_marker_run. cbn [_markers set_markers].
    rewrite get_adjust, get_set, !String.eqb_refl. cbn [option_map].
    eexists. split; [reflexivity|]. cbn.
    do 4 (split; [reflexivity|]).
    intros n. rewrite !get_adjust, get_set, get_del, get_adjust.
    destruct (String.eqb new_name n); [reflexivity|].
    destruct (String.eqb old_name n); reflexivity.
  - unfold bind at 1. rewrite on_marker_run, E. reflexivity.
Qed.

Lemma add_marker_run (L : Logic) (name : string) (position : vec3)
  (g : Gui) :
  name <> "" ->
  match PyDict.get name (_markers g) with
  | Some _ =>
      _add_poi_marker L name position g
      = Ok tt
          (log_error
             "Unable to add POI marker to ROI image. POI marker already present."
             g)
  | None =>
      let marker :=
        PoiMarker.init (next_obj g) (xy position)
          (optimise_xy_size L / sqrt 2) name in
      exists g',
        _add_poi_marker L name position g = Ok tt g'
        /\ next_obj g' = S (next_obj g)
        /\ plot_items g' = PoiMarker.add_to_view_widget marker (plot_items g)
        /\ connections g'
           = connect (marker_sigPoiSelected (next_obj g)) logic_set_active_poi
               (connect (marker_sigClicked (next_obj g))
                  (marker_notify_clicked_poi_name (next_obj g))
                  (connections g))
        /\ log g' = log g
        /\ forall n, PyDict.get n (_markers g')
                     = if String.eqb name n then Some marker
                       else PyDict.get n (_markers g)
  end.
Proof.
  intros Hname. apply String.eqb_neq in Hname.
  unfold _add_poi_marker, PyDict.mem, bind, gets, modify, do_connect.
  rewrite Hname.
  destruct (PyDict.get name (_markers g)); [reflexivity|].
  cbv zeta. eexists. split; [reflexivity|]. cbn.
  do 4 (split; [reflexivity|]). intros n. apply get_set.
Qed.



(** A rename or move notification for a name that has a marker: when
    [update_poi] is done, returned or raised, the new name holds the same
    marker object, named and labelled with the new name, resized to the
    optimisation size and centred on the reported position; the old name, if
    different, holds nothing; plot items and connections are as before. *)
Theorem update_poi_rekeys (natural_sort : list string -> list string)
  (L : Logic) (old_name new_name : string) (position : vec3) (g : Gui)
  (m : PoiMarker.t) :
  old_name <> "" -> new_name <> "" ->
  PyDict.get old_name (_markers g) = Some m ->
  let g' := final (update_poi natural_sort L old_name new_name position g) in
  (exists m',
     PyDict.get new_name (_markers g') = Some m'
     /\ PoiMarker.obj m' = PoiMarker.obj m
     /\ PoiMarker.poi_name m' = new_name
     /\ PoiMarker.label_text m' = new_name
     /\ PoiMarker.roi_size m'
        = (optimise_xy_size L * sqrt 2, optimise_xy_size L * sqrt 2)
     /\ centred_at (xy position) m')
  /\ (old_name <> new_name -> PyDict.get old_name (_markers g') = None)
  /\ plot_items g' = plot_items g
  /\ connections g' = connections g
  /\ next_obj g' = next_obj g.
Proof.
  intros Ho Hn Hm. cbv zeta. rewrite update_poi_parts.
  destruct (refill_ComboBox_run natural_sort L old_name new_name g)
    as (cb & Rc).
  rewrite bind_final, Rc, bind_final.
  unfold update_marker.
  apply String.eqb_neq in Ho, Hn. rewrite Ho, Hn.
  pose proof (rekey_marker_run L old_name new_name position
                (set_ComboBox cb g)) as H.
  change (_markers (set_ComboBox cb g)) with (_markers g) in H.
  rewrite Hm in H. destruct H as (g2 & R2 & N2 & P2 & C2 & _ & M2).
  rewrite R2.
  destruct (select_shown_effect g2) as (N3 & P3 & C3 & _ & Mn3 & Ms3 & _).
  cbv zeta in N3, P3, C3, Mn3, Ms3.
  split; [|split; [|split; [|split]]].
  - pose proof (M2 new_name) as G. rewrite String.eqb_refl in G.
    destruct (Ms3 _ _ G) as [G3|G3]; eexists; (split; [exact G3|]);
      repeat split.
  - intros Hne. apply Mn3. rewrite M2.
    apply String.eqb_neq in Hne. rewrite String.eqb_sym in Hne.
    now rewrite Hne, String.eqb_refl.
  - now rewrite P3, P2.
  - now rewrite C3, C2.
  - now rewrite N3, N2.
Qed.

Lemma update_poi_rekeys_witness :
  let g := final (_update_pois sort_names stored_order
                    (backend pois_b_c (Some "b")) pois_b_c new_gui) in
  let g' := final (update_poi sort_names (backend pois_c_a (Some "a"))
                     "b" "a" (2, 2, 0) g) in
  (exists m',
     PyDict.get "a" (_markers g') = Some m'
     /\ PoiMarker.obj m' = 0%nat
     /\ PoiMarker.poi_name m' = "a"
     /\ PoiMarker.label_text m' = "a"
     /\ PoiMarker.roi_size m'
        = (optimise_xy_size (backend pois_c_a (Some "a")) * sqrt 2,
           optimise_xy_size (backend pois_c_a (Some "a")) * sqrt 2)
     /\ centred_at (xy (2, 2, 0)) m')
  /\ ("b" <> "a" -> PyDict.get "b" (_markers g') = None)
  /\ plot_items g' = plot_items g
  /\ connections g' = connections g
  /\ next_obj g' = next_obj g.
Proof.
  intros g.
  refine (update_poi_rekeys sort_names (backend pois_c_a (Some "a"))
            "b" "a" (2, 2, 0) g
            (PoiMarker.select
               (PoiMarker.init 0 (xy (0, 0, 0))
                  (optimise_xy_size (backend pois_b_c (Some "b")) / sqrt 2)
                  "b")) _ _ _); [discriminate|discriminate|reflexivity].
Defined.

Lemma remove_marker_run (name : string) (g : Gui) (m : PoiMarker.t) :
  PyDict.get name (_markers g) = Some m ->
  exists g',
    _remove_poi_marker name g = Ok tt g'
    /\ next_obj g' = next_obj g
    /\ plot_items g' = PoiMarker.delete_from_view_widget m (plot_items g)
    /\ connections g'
       = disconnect (marker_sigPoiSelected (PoiMarker.obj m)) (connections g)
    /\ log g' = log g
    /\ forall n, PyDict.get n (_markers g')
                 = if String.eqb name n then None
                   else PyDict.get n (_markers g).
Proof.
  intros Hm. unfold _remove_poi_marker, bind, gets, modify, do_disconnect.
  rewrite Hm. eexists. split; [reflexivity|]. cbn.
  do 4 (split; [reflexivity|]). intros n. apply get_del.
Qed.

(** A deletion notification for a name that has a marker: when [update_poi]
    is done, returned or raised, the name holds nothing, the two items of the
    marker are off the plot widget and every other item is still there, and
    the connections are those of before without the marker's click
    notification; the other markers are as they were, or selected. *)
Theorem update_poi_removes (natural_sort : list string -> list string)
  (L : Logic) (old_name : string) (position : vec3) (g : Gui)
  (m : PoiMarker.t) :
  old_name <> "" ->
  PyDict.get old_name (_markers g) = Some m ->
  let g' := final (update_poi natural_sort L old_name "" position g) in
  PyDict.get old_name (_markers g') = None
  /\ (forall x, In x (plot_items g')
                <-> In x (plot_items g)
                    /\ x <> Shape (PoiMarker.obj m)
                    /\ x <> Label (PoiMarker.obj m))
  /\ (forall c, In c (connections g')
                <-> In c (connections g)
                    /\ fst c <> marker_sigPoiSelected (PoiMarker.obj m))
  /\ (forall n m0, n <> old_name ->
        PyDict.get n (_markers g) = Some m0 ->
        PyDict.get n (_markers g') = Some m0
        \/ PyDict.get n (_markers g') = Some (PoiMarker.select m0)).
Proof.
  intros Ho Hm. cbv zeta. rewrite update_poi_parts.
  destruct (refill_ComboBox_run natural_sort L old_name "" g) as (cb & Rc).
  rewrite bind_final, Rc, bind_final.
  unfold update_marker. apply String.eqb_neq in Ho. rewrite Ho.
  cbn [String.eqb].
  destruct (remove_marker_run old_name (set_ComboBox cb g) m Hm)
    as (g2 & R2 & N2 & P2 & C2 & _ & M2).
  cbn [plot_items connections _markers set_ComboBox] in P2, C2, M2.
  rewrite R2.
  destruct (select_shown_effect g2) as (N3 & P3 & C3 & _ & Mn3 & Ms3 & _).
  cbv zeta in N3, P3, C3, Mn3, Ms3.
  split; [|split; [|split]].
  - apply Mn3. now rewrite M2, String.eqb_refl.
  - intros x. rewrite P3, P2. apply delete_from_view_In.
  - intros c. rewrite C3, C2. apply disconnect_In.
  - intros n m0 Hne Hm0. apply Ms3. rewrite M2.
    apply String.eqb_neq in Hne. rewrite String.eqb_sym in Hne.
    now rewrite Hne.
Qed.

Lemma update_poi_removes_witness :
  let g := final (_update_pois sort_names stored_order
                    (backend pois_b_c (Some "b")) pois_b_c new_gui) in
  let m := PoiMarker.init 1 (xy (1, 1, 0))
             (optimise_xy_size (backend pois_b_c (Some "b")) / sqrt 2) "c" in
  let g' := final (update_poi sort_names (backend pois_b_c (Some "b"))
                     "c" "" (1, 1, 0) g) in
  PyDict.get "c" (_markers g') = None
  /\ (forall x, In x (plot_items g')
                <-> In x (plot_items g)
                    /\ x <> Shape (PoiMarker.obj m)
                    /\ x <> Label (PoiMarker.obj m))
  /\ (forall c, In c (connections g')
                <-> In c (connections g)
                    /\ fst c <> marker_sigPoiSelected (PoiMarker.obj m))
  /\ (forall n m0, n <> "c" ->
        PyDict.get n (_markers g) = Some m0 ->
        PyDict.get n (_markers g') = Some m0
        \/ PyDict.get n (_markers g') = Some (PoiMarker.select m0)).
Proof.
  intros g m.
  apply (update_poi_removes sort_names (backend pois_b_c (Some "b")) "c"
           (1, 1, 0) g m); [discriminate|reflexivity].
Defined.

(** An addition notification: when [update_poi] is done, returned or raised,
    a name that had no marker holds a new marker object of that name,
    centred on the reported position, with the radius of the optimisation
    size, drawn and connected, and nothing is logged; for a name that had a
    marker one error is logged, the marker stays (as it was, or selected),
    and plot items and connections are as before. *)
Theorem update_poi_adds (natural_sort : list string -> list string)
  (L : Logic) (new_name : string) (position : vec3) (g : Gui) :
  new_name <> "" ->
  let g' := final (update_poi natural_sort L "" new_name position g) in
  (PyDict.get new_name (_markers g) = None ->
   log g' = log g
   /\ exists m',
        PyDict.get new_name (_markers g') = Some m'
        /\ PoiMarker.obj m' = next_obj g
        /\ next_obj g' = S (next_obj g)
        /\ PoiMarker.poi_name m' = new_name
        /\ PoiMarker.roi_size m'
           = (2 * (optimise_xy_size L / sqrt 2),
              2 * (optimise_xy_size L / sqrt 2))
        /\ centred_at (xy position) m'
        /\ attached m' g')
  /\ (forall m, PyDict.get new_name (_markers g) = Some m ->
        log g'
        = log g
          ++ ["Unable to add POI marker to ROI image. POI marker already present."]
        /\ (PyDict.get new_name (_markers g') = Some m
            \/ PyDict.get new_name (_markers g') = Some (PoiMarker.select m))
        /\ plot_items g' = plot_items g
        /\ connections g' = connections g
        /\ next_obj g' = next_obj g).
Proof.
  intros Hn. cbv zeta. rewrite update_poi_parts.
  destruct (refill_ComboBox_run natural_sort L "" new_name g) as (cb & Rc).
  rewrite bind_final, Rc, bind_final.
  unfold update_marker. cbn [String.eqb].
  pose proof (add_marker_run L new_name position (set_ComboBox cb g) Hn)
    as H.
  cbn [_markers next_obj plot_items connections log set_ComboBox] in H.
  split.
  - intros Hnone. rewrite Hnone in H. cbv zeta in H.
    destruct H as (g2 & R2 & N2 & P2 & C2 & L2 & M2). rewrite R2.
    destruct (select_shown_effect g2) as (N3 & P3 & C3 & L3 & _ & Ms3 & _).
    cbv zeta in N3, P3, C3, L3, Ms3.
    split; [now rewrite L3, L2|].
    pose proof (M2 new_name) as G. rewrite String.eqb_refl in G.
    assert (Hatt : forall m',
              PoiMarker.obj m' = next_obj g ->
              attached m' (final (select_shown g2))).
    { intros m' Ho. unfold attached. rewrite P3, P2, C3, C2, Ho.
      unfold PoiMarker.add_to_view_widget, connect. cbn.
      rewrite !in_app_iff. cbn. auto 6. }
    destruct (Ms3 _ _ G) as [G3|G3]; eexists; (split; [exact G3|]);
      (split; [reflexivity|]); (split; [now rewrite N3, N2|]);
      (split; [reflexivity|]); (split; [reflexivity|]);
      (split; [apply centred_init || apply centred_select, centred_init|]);
      now apply Hatt.
  - intros m Hm. rewrite Hm in H. rewrite H.
    destruct (select_shown_effect
                (log_error
                   "Unable to add POI marker to ROI image. POI marker already present."
                   (set_ComboBox cb g)))
      as (N3 & P3 & C3 & L3 & _ & Ms3 & _).
    cbv zeta in N3, P3, C3, L3, Ms3.
    split; [exact L3|]. split; [now apply Ms3|].
    split; [exact P3|]. split; [exact C3|exact N3].
Qed.

Lemma update_poi_adds_witness :
  let g := final (_update_pois sort_names stored_order
                    (backend pois_b_c (Some "b")) pois_b_c new_gui) in
  let L := backend (pois_b_c ++ [("a", (2, 2, 0))]) (Some "b") in
  let g' := final (update_poi sort_names L "" "a" (2, 2, 0) g) in
  log g' = log g
  /\ exists m',
       PyDict.get "a" (_markers g') = Some m'
       /\ PoiMarker.obj m' = next_obj g
       /\ next_obj g' = S (next_obj g)
       /\ PoiMarker.poi_name m' = "a"
       /\ PoiMarker.roi_size m'
          = (2 * (optimise_xy_size L / sqrt 2),
             2 * (optimise_xy_size L / sqrt 2))
       /\ centred_at (xy (2, 2, 0)) m'
       /\ attached m' g'.
Proof.
  intros g L.
  apply (proj1 (update_poi_adds sort_names L "a" (2, 2, 0) g
                  ltac:(discriminate))).
  reflexivity.
Defined.

(* ------------------------------------------------------------------ *)
(** ** A ROI notification *)



(* ------------------------------------------------------------------ *)
(** ** Marker objects stay allocated *)

Lemma objects_allocated_view (g g' : Gui) :
  objects_allocated g ->
  (next_obj g <= next_obj g')%nat ->
  (forall n m', PyDict.get n (_markers g') = Some m' ->
     (PoiMarker.obj m' < next_obj g')%nat
     \/ exists m, PyDict.get n (_markers g) = Some m
                  /\ PoiMarker.obj m' = PoiMarker.obj m) ->
  objects_allocated g'.
Proof.
  intros H Hle Hv n m' Hm'. destruct (Hv n m' Hm') as [Hlt|(m & Hm & Ho)].
  - exact Hlt.
  - rewrite Ho. pose proof (H n m Hm). lia.
Qed.

(** The hypothesis of the reconciliation theorem is an invariant: it holds
    of the state [__init__] leaves, and [update_poi] and [update_active_poi]
    keep it, whether they return or raise. *)
Theorem objects_allocated_kept
  (natural_sort : list string -> list string) (L : Logic) (g : Gui) :
  objects_allocated new_gui
  /\ (objects_allocated g ->
      (forall old_name new_name position,
         objects_allocated
           (final (update_poi natural_sort L old_name new_name position g)))
      /\ (forall name,
            objects_allocated (final (update_active_poi L name g)))).
Proof.
  split; [intros n m H; discriminate|]. intros Hg. split.
  - intros old_name new_name position. rewrite update_poi_parts.
    destruct (refill_ComboBox_run natural_sort L old_name new_name g)
      as (cb & Rc).
    rewrite bind_final, Rc, bind_final.
    assert (H1 : objects_allocated (set_ComboBox cb g)) by exact Hg.
    assert (Hsel : forall g2, objects_allocated g2 ->
                     objects_allocated (final (select_shown g2))).
    { intros g2 H2.
      destruct (select_shown_effect g2) as (N3 & _ & _ & _ & Mn3 & Ms3 & _).
      cbv zeta in N3, Mn3, Ms3.
      apply (objects_allocated_view g2); [exact H2|lia|].
      intros n m' Hm'. right.
      destruct (PyDict.get n (_markers g2)) as [m|] eqn:E;
        [|rewrite (Mn3 n E) in Hm'; discriminate].
      exists m. split; [reflexivity|].
      destruct (Ms3 n m E) as [G|G]; rewrite G in Hm';
        injection Hm' as <-; reflexivity. }
    unfold update_marker.
    destruct (String.eqb old_name "") eqn:Eo.
    + destruct (String.eqb new_name "") eqn:En.
      * unfold _add_poi_marker. rewrite En. cbn [ret]. now apply Hsel.
      * apply String.eqb_neq in En.
        pose proof (add_marker_run L new_name position (set_ComboBox cb g)
                      En) as H.
        destruct (PyDict.get new_name (_markers (set_ComboBox cb g))) eqn:E.
        -- rewrite H. apply Hsel. exact Hg.
        -- cbv zeta in H. destruct H as (g2 & R2 & N2 & _ & _ & _ & M2).
           rewrite R2. apply Hsel.
           apply (objects_allocated_view (set_ComboBox cb g));
             [exact H1|rewrite N2; cbn; lia|].
           intros n m' Hm'. rewrite M2 in Hm'.
           destruct (String.eqb new_name n).
           ++ left. injection Hm' as <-. rewrite N2. cbn. lia.
           ++ right. now exists m'.
    + destruct (String.eqb new_name "") eqn:En.
      * destruct (remove_marker_step old_name (set_ComboBox cb g))
          as (g2 & R2 & M2 & N2 & _). rewrite R2. apply Hsel.
        apply (objects_allocated_view (set_ComboBox cb g));
          [exact H1|rewrite N2; lia|].
        intros n m' Hm'. rewrite M2 in Hm'.
        destruct (String.eqb old_name n); [discriminate|].
        right. now exists m'.
      * pose proof (rekey_marker_run L old_name new_name position
                      (set_ComboBox cb g)) as H.
        destruct (PyDict.get old_name (_markers (set_ComboBox cb g)))
          as [m|] eqn:E.
        -- destruct H as (g2 & R2 & N2 & _ & _ & _ & M2). rewrite R2.
           apply Hsel.
           apply (objects_allocated_view (set_ComboBox cb g));
             [exact H1|rewrite N2; lia|].
           intros n m' Hm'. rewrite M2 in Hm'.
           destruct (String.eqb new_name n).
           ++ left. injection Hm' as <-. rewrite N2.
              exact (H1 old_name m E).
           ++ destruct (String.eqb old_name n); [discriminate|].
              right. now exists m'.
        -- rewrite H. exact Hg.
  - intros name. rewrite update_active_poi_run. cbn [final].
    apply (objects_allocated_view g); [exact Hg|cbn; lia|].
    intros n m' Hm'. right.
    cbn [_markers set_markers set_poi_coords_label set_ComboBox] in Hm'.
    destruct (get_deselect_first n (_markers g)) as (f & Ef & Hf).
    assert (Hobj : forall m, PoiMarker.obj (f m) = PoiMarker.obj m)
      by (destruct Hf; subst f; reflexivity).
    destruct (PyDict.mem name (_markers g)).
    + rewrite !get_adjust, Ef in Hm'.
      destruct (PyDict.get n (_markers g)) as [m|];
        [|destruct (String.eqb name n); discriminate].
      exists m. split; [reflexivity|].
      destruct (String.eqb name n); cbn in Hm'; injection Hm' as <-;
        cbn; apply Hobj.
    + rewrite Ef in Hm'.
      destruct (PyDict.get n (_markers g)) as [m|]; [|discriminate].
      exists m. split; [reflexivity|]. cbn in Hm'. injection Hm' as <-.
      apply Hobj.
Qed.

Lemma objects_allocated_kept_witness :
  objects_allocated new_gui
  /\ objects_allocated
       (final (update_poi sort_names (backend two_pois (Some "A"))
                 "" "C" (1, 2, 3)%R new_gui)).
Proof.
  split; [intros n m H; discriminate|].
  apply (proj1 (proj2 (objects_allocated_kept sort_names
                         (backend two_pois (Some "A")) new_gui)
                  (fun n m H => ltac:(discriminate H)))).
Defined.

(* ------------------------------------------------------------------ *)
(** ** What activation connects *)










(* ------------------------------------------------------------------ *)
(** ** The active POI after a reconciliation *)

Lemma same_ComboBox_refl (g : Gui) : same_ComboBox g g.
Proof. reflexivity. Qed.

Lemma same_ComboBox_trans (g1 g2 g3 : Gui) :
  same_ComboBox g1 g2 -> same_ComboBox g2 g3 -> same_ComboBox g1 g3.
Proof. unfold same_ComboBox. congruence. Qed.

Ltac same_ComboBox_tac :=
  pose proof same_ComboBox_refl; pose proof same_ComboBox_trans;
  frame_steps;
  match goal with
  | |- keeps _ (modify _) => apply keeps_modify; intros ?; reflexivity
  end.

Lemma remove_loop_same_ComboBox (l : list string) :
  keeps same_ComboBox (for_each l _remove_poi_marker).
Proof.
  unfold _remove_poi_marker, do_disconnect. same_ComboBox_tac.
Qed.

Lemma reposition_loop_same_ComboBox (L : Logic)
  (poi_dict : PyDict.dict vec3) (l : list string) :
  keeps same_ComboBox (for_each l (reposition L poi_dict)).
Proof.
  unfold reposition, on_marker, marker_at, dict_item. same_ComboBox_tac.
Qed.

Lemma add_loop_same_ComboBox (L : Logic) (poi_dict : PyDict.dict vec3)
  (l : list string) :
  keeps same_ComboBox (for_each l (add_reported L poi_dict)).
Proof.
  unfold add_reported, _add_poi_marker, dict_item, do_connect.
  same_ComboBox_tac.
Qed.

Lemma get_adjust_select_selected (name : string)
  (d : PyDict.dict PoiMarker.t) (m : PoiMarker.t) :
  PyDict.get name d = Some m ->
  exists m', PyDict.get name (PyDict.adjust PoiMarker.select name d) = Some m'
             /\ PoiMarker.selected m' = true.
Proof.
  intros H. rewrite get_adjust, String.eqb_refl, H.
  eexists. split; reflexivity.
Qed.

(** When [_update_pois] returns, the combo box lists the names of the
    mapping in natural sort order.  If the active POI of the backend is one
    of them, the combo box shows it, its marker is selected and the
    coordinate label is fed its reported position; otherwise the combo box
    shows nothing. *)
Theorem update_pois_shows_active
  (natural_sort list_of_set : list string -> list string) (L : Logic)
  (poi_dict : PyDict.dict vec3) (g : Gui) :
  let r := _update_pois natural_sort list_of_set L poi_dict g in
  let names := natural_sort (PyDict.keys poi_dict) in
  raised r = None ->
  ComboBox.items (active_poi_ComboBox (final r)) = names
  /\ match active_poi L with
     | Some active =>
         if contains names active then
           ComboBox.currentText (active_poi_ComboBox (final r)) = active
           /\ (exists m, PyDict.get active (_markers (final r)) = Some m
                         /\ PoiMarker.selected m = true)
           /\ PyDict.get active poi_dict = Some (poi_coords_label (final r))
         else ComboBox.currentIndex (active_poi_ComboBox (final r)) = None
     | None => ComboBox.currentIndex (active_poi_ComboBox (final r)) = None
     end.
Proof.
  intros r names H. apply raised_none_ok in H.
  remember (final r) as g' eqn:Eg'. clear Eg'.
  unfold r, _update_pois in H. cbv zeta in H. fold names in H.
  apply bind_ok_inv in H as (? & g1 & H1 & H).
  apply bind_ok_inv in H as (? & g2 & H2 & H).
  apply bind_ok_inv in H as (old & g2' & H2' & H).
  apply bind_ok_inv in H as (? & g3 & H3 & H).
  apply bind_ok_inv in H as (remaining & g3' & H3' & H).
  apply bind_ok_inv in H as (? & g4 & H4 & H).
  apply bind_ok_inv in H as (? & g5 & H5 & H).
  apply ok_final in H1, H2. cbn in H1, H2.
  unfold gets in H2', H3'.
  injection H2' as _ E2'. injection H3' as _ E3'. subst g2' g3'.
  apply ok_final in H3, H4, H5.
  assert (K3 : same_ComboBox g2 g3)
    by (rewrite <- H3; apply remove_loop_same_ComboBox).
  assert (K4 : same_ComboBox g3 g4)
    by (rewrite <- H4; apply (reposition_loop_same_ComboBox L poi_dict)).
  assert (K5 : same_ComboBox g4 g5)
    by (rewrite <- H5; apply (add_loop_same_ComboBox L poi_dict)).
  assert (Hcb : active_poi_ComboBox g5
                = ComboBox.addItems names ComboBox.empty).
  { unfold same_ComboBox in K3, K4, K5. rewrite K5, K4, K3, <- H2, <- H1.
    reflexivity. }
  assert (Hitems : ComboBox.items (active_poi_ComboBox g5) = names)
    by (rewrite Hcb; reflexivity).
  assert (Hnone : on_ComboBox ComboBox.setCurrentIndex_none g5 = Ok tt g' ->
                  ComboBox.items (active_poi_ComboBox g') = names
                  /\ ComboBox.currentIndex (active_poi_ComboBox g') = None).
  { unfold on_ComboBox, modify. intros [= <-]. cbn. now rewrite Hitems. }
  destruct (active_poi L) as [active|].
  - destruct (contains names active) eqn:Ec.
    + apply bind_ok_inv in H as (? & g6 & H6 & H).
      apply bind_ok_inv in H as (? & g7 & H7 & H).
      apply bind_ok_inv in H as (p & g8 & H8 & H).
      apply ok_final in H6. cbn in H6.
      rewrite on_marker_run in H7.
      destruct (PyDict.get active (_markers g6)) as [m|] eqn:Em;
        [|discriminate].
      apply ok_final in H7. cbn [final] in H7.
      unfold dict_item in H8.
      destruct (PyDict.get active poi_dict) as [pa|] eqn:Ep;
        [|discriminate].
      unfold ret in H8. injection H8 as Epa Eg8.
      apply ok_final in H. cbn in H.
      rewrite <- H, <- Eg8, <- H7, <- Epa. cbn.
      rewrite <- H6 in Em |- *. cbn in Em |- *.
      rewrite setCurrentText_items, Hitems. split; [reflexivity|].
      split; [|split; [|reflexivity]].
      * apply setCurrentText_shown. rewrite Hitems.
        now apply contains_true_iff.
      * exact (get_adjust_select_selected active _ m Em).
    + destruct (Hnone H) as [A B]. now split.
  - destruct (Hnone H) as [A B]. now split.
Qed.

Lemma update_pois_shows_active_witness :
  let r := _update_pois sort_names stored_order
             (backend two_pois (Some "B")) two_pois new_gui in
  let names := sort_names (PyDict.keys two_pois) in
  ComboBox.items (active_poi_ComboBox (final r)) = names
  /\ match active_poi (backend two_pois (Some "B")) with
     | Some active =>
         if contains names active then
           ComboBox.currentText (active_poi_ComboBox (final r)) = active
           /\ (exists m, PyDict.get active (_markers (final r)) = Some m
                         /\ PoiMarker.selected m = true)
           /\ PyDict.get active two_pois = Some (poi_coords_label (final r))
         else ComboBox.currentIndex (active_poi_ComboBox (final r)) = None
     | None => ComboBox.currentIndex (active_poi_ComboBox (final r)) = None
     end.
Proof.
  intros r names.
  apply (update_pois_shows_active sort_names stored_order
           (backend two_pois (Some "B")) two_pois new_gui).
  reflexivity.
Defined.

(* ------------------------------------------------------------------ *)
(** ** Instances *)

Lemma update_active_poi_returns_witness :
  exists g',
    update_active_poi (backend two_pois (Some "A")) "" new_gui = Ok tt g'
    /\ ComboBox.currentText (active_poi_ComboBox g') = "".
Proof.
  destruct (update_active_poi_returns (backend two_pois (Some "A")) ""
              new_gui) as (g' & R & _ & _ & _ & _ & _ & Hempty & _).
  exists g'. split; [exact R|]. apply Hempty. reflexivity.
Defined.

